(** * ARC-UI-LIB: the asset-installation workflow of the CLI and the toast queue

    A shallow embedding of the command-line installer (catalog, Tailwind
    prerequisite check and provisioning, dependency installer, file fetcher,
    index updater) and of the toast reducer of the Toaster component,
    followed by the properties of the specification that were checked
    against them.

    Conventions of the embedding.
    - JavaScript strings are [string]s; [LF] is the line feed written "\n"
      in the source.
    - The two catalogs ([components], [templates]) are object literals used
      as maps: their own properties are a [gmap string _], and a property
      read on them also sees what every object inherits from
      [Object.prototype], see [jsLookup].
    - The file system of the target project is a [gmap string node]; a path
      holds a regular file or a directory.  All effects ([fs], [axios],
      [execSync], [prompts], [console.log]) are recorded, most recent first,
      in the [trace] of the [World].
    - An [async] function is a computation [M A]: it takes a world and
      returns the new world with either a value or the exception the promise
      is rejected with. *)

From Stdlib Require Import String Ascii List ZArith Lia Bool.
From stdpp Require Import base option list strings gmap.

Set Warnings "-register-all".
Local Open Scope string_scope.
Local Open Scope list_scope.

(** ** JavaScript string primitives *)

Module Js.

(** The line feed, "\n". *)
Definition LF : string := String (ascii_of_nat 10) EmptyString.

(** [s.startsWith(p)] *)
Definition startsWith (s p : string) : bool := String.prefix p s.

(** [s.includes(t)]: [t] occurs in [s] at some position. *)
Fixpoint includes (s t : string) : bool :=
  String.prefix t s ||
  match s with
  | EmptyString => false
  | String _ s' => includes s' t
  end.

(** Number of positions of [s] at which [t] occurs (occurrences may
    overlap).  Not a function of the source: it is what "occurrence of the
    export line in the index file" is counted with. *)
Fixpoint occurrences (t s : string) : nat :=
  (if String.prefix t s then 1 else 0) +
  match s with
  | EmptyString => 0
  | String _ s' => occurrences t s'
  end.

(** [a.join(sep)] on an array of strings. *)
Fixpoint join (sep : string) (a : list string) : string :=
  match a with
  | [] => ""
  | [x] => x
  | x :: rest => x +:+ sep +:+ join sep rest
  end.

(** [s.split('.')[0]]: the text before the first dot, all of [s] when it
    has none. *)
Fixpoint beforeFirstDot (s : string) : string :=
  match s with
  | EmptyString => ""
  | String c s' =>
      if Ascii.eqb c "."%char then "" else String c (beforeFirstDot s')
  end.

(** [c.toUpperCase()] on one ASCII character; the names of the catalog are
    ASCII. *)
Definition toUpperCaseChar (c : ascii) : ascii :=
  let n := nat_of_ascii c in
  if (97 <=? n)%nat && (n <=? 122)%nat then ascii_of_nat (n - 32) else c.

(** [s.charAt(0).toUpperCase() + s.slice(1)] *)
Definition capitalize (s : string) : string :=
  match s with
  | EmptyString => ""
  | String c s' => String (toUpperCaseChar c) s'
  end.

(** [s.toUpperCase()] on ASCII text. *)
Fixpoint toUpperCase (s : string) : string :=
  match s with
  | EmptyString => ""
  | String c s' => String (toUpperCaseChar c) (toUpperCase s')
  end.

(** The own-or-inherited outcome of a property read [obj[key]] on an
    object literal: an own property, a property inherited from
    [Object.prototype] (a function or the prototype itself, always truthy
    and without any of the fields of a catalog entry), or [undefined]. *)
Inductive lookupResult (A : Type) : Type :=
| Own (a : A)
| Inherited
| Undefined.
Arguments Own {A} a.
Arguments Inherited {A}.
Arguments Undefined {A}.

(** The property names every object literal inherits. *)
Definition objectPrototypeKeys : list string :=
  [ "constructor"; "__proto__"; "hasOwnProperty"; "isPrototypeOf";
    "propertyIsEnumerable"; "toLocaleString"; "toString"; "valueOf";
    "__defineGetter__"; "__defineSetter__"; "__lookupGetter__";
    "__lookupSetter__" ].

(** [obj[key]] for an object literal whose own properties are [m]. *)
Definition jsLookup {A : Type} (m : gmap string A) (key : string)
  : lookupResult A :=
  match m !! key with
  | Some a => Own a
  | None =>
      if bool_decide (key ∈ objectPrototypeKeys) then Inherited
      else Undefined
  end.

(** [a.slice(0, e)] for an integer [e]: a negative [e] counts from the
    end of the array. *)
Definition slice0 {A : Type} (a : list A) (e : Z) : list A :=
  let len := Z.of_nat (length a) in
  let k := if (e <? 0)%Z then Z.max (len + e) 0 else Z.min e len in
  firstn (Z.to_nat k) a.

End Js.

(** ** JSON values, as [fs.readJson] returns them *)

Module Json.

Inductive json : Type :=
| JNull
| JBool (b : bool)
| JNum (n : Z)
| JStr (s : string)
| JArr (items : list json)
| JObj (props : list (string * json)).

(** The value of a property read; [None] is [undefined]. *)
Definition jsval := option json.

(** [!!v] *)
Definition truthy (v : jsval) : bool :=
  match v with
  | None => false
  | Some JNull => false
  | Some (JBool b) => b
  | Some (JNum n) => negb (n =? 0)%Z
  | Some (JStr s) => negb (String.eqb s "")
  | Some (JArr _) => true
  | Some (JObj _) => true
  end.

(** The own property [key] of a parsed object: when a key is repeated in
    the text, [JSON.parse] keeps the last one. *)
Fixpoint ownProp (props : list (string * json)) (key : string) : jsval :=
  match props with
  | [] => None
  | (k, v) :: rest =>
      match ownProp rest key with
      | Some v' => Some v'
      | None => if String.eqb k key then Some v else None
      end
  end.

(** [o.dependencies] and [o.devDependencies] on the parsed package.json:
    reading a property of [null] throws, of any other value that is not
    an object gives [undefined]. *)
Definition getField (o : json) (key : string) : option jsval :=
  match o with
  | JNull => None
  | JObj props => Some (ownProp props key)
  | _ => Some None
  end.

(** [({ ...a, ...b }).tailwindcss]: the spread copies own enumerable
    properties, those of [b] last; spreading [undefined], [null], a
    number or a boolean copies nothing, and an array or a string only
    contributes index keys. *)
Definition spreadProp (a b : jsval) (key : string) : jsval :=
  let own (v : jsval) : option jsval :=
    match v with
    | Some (JObj props) =>
        if bool_decide (key ∈ props.*1) then Some (ownProp props key)
        else None
    | _ => None
    end in
  match own b with
  | Some v => v
  | None =>
      match own a with
      | Some v => v
      | None => None
      end
  end.

End Json.

(** ** The catalog: components and templates with their files and
    dependencies *)

Module Catalog.

(** The output formats, ["tsx" | "jsx"]. *)
Inductive Format : Type := tsx | jsx.

(** [a === b] on formats. *)
Definition format_eqb (a b : Format) : bool :=
  match a, b with
  | tsx, tsx | jsx, jsx => true
  | _, _ => false
  end.

(** The text of a format, as it is interpolated into paths and export
    lines. *)
Definition formatText (fmt : Format) : string :=
  match fmt with
  | tsx => "tsx"
  | jsx => "jsx"
  end.

(** [interface ComponentFile] and [interface TemplateFile], which have the
    same fields; [format] is optional. *)
Record ComponentFile : Type := mkFile {
  filename : string;
  url : string;
  format : option Format
}.

Abbreviation TemplateFile := ComponentFile.

(** [interface ComponentConfig] *)
Record ComponentConfig : Type := mkComponentConfig {
  files : list ComponentFile;
  dependencies : list string;
  devDependencies : list string;
  requiresTailwind : option bool
}.

(** [interface TemplateConfig] *)
Record TemplateConfig : Type := mkTemplateConfig {
  template_files : list TemplateFile;
  template_dependencies : list string;
  template_devDependencies : list string;
  template_requiresTailwind : option bool;
  category : option string
}.

(** The host every file of the catalog is fetched from. *)
Definition rawHost : string :=
  "https://raw.githubusercontent.com/arkia1/ARC-UI-LIB/main/".

(** [const components: Record<string, ComponentConfig>] *)
Definition components : gmap string ComponentConfig :=
  <[ "button" :=
       {| files :=
            [ mkFile "Button.tsx"
                (rawHost +:+ "components/button/Button.tsx") (Some tsx);
              mkFile "Button.jsx"
                (rawHost +:+ "components/button/Button.jsx") (Some jsx);
              mkFile "button-animations.css"
                (rawHost +:+ "components/button/button-animations.css") None ];
          dependencies := ["clsx"];
          devDependencies := [];
          requiresTailwind := Some true |} ]>
  (<[ "toaster" :=
       {| files :=
            [ mkFile "Toaster.jsx"
                (rawHost +:+ "components/toaster/Toaster.jsx") (Some jsx) ];
          dependencies := ["react-dom"];
          devDependencies := [];
          requiresTailwind := Some true |} ]> ∅).

(** [const templates: Record<string, TemplateConfig>] *)
Definition templates : gmap string TemplateConfig :=
  <[ "clientSideErrors" :=
       {| template_files :=
            [ mkFile "ClientSideErrors.tsx"
                (rawHost +:+
                 "templates/errors/ClientSideErrors/ClientSideErrors.tsx")
                (Some tsx);
              mkFile "ClientSideErrors.jsx"
                (rawHost +:+
                 "templates/errors/ClientSideErrors/ClientSideErrors.jsx")
                (Some jsx) ];
          template_dependencies := [];
          template_devDependencies := [];
          template_requiresTailwind := Some true;
          category := Some "errors/4xx" |} ]>
  (<[ "serverSideErrors" :=
       {| template_files :=
            [ mkFile "ServerSideErrors.tsx"
                (rawHost +:+
                 "templates/errors/ServerSideErrors/ServerSideErrors.tsx")
                (Some tsx);
              mkFile "ServerSideErrors.jsx"
                (rawHost +:+
                 "templates/errors/ServerSideErrors/ServerSideErrors.jsx")
                (Some jsx) ];
          template_dependencies := [];
          template_devDependencies := [];
          template_requiresTailwind := Some true;
          category := Some "errors/5xx" |} ]> ∅).

(** The predicate of [files.filter(file => !file.format || file.format ===
    format)]. *)
Definition wanted (fmt : Format) (file : ComponentFile) : bool :=
  match format file with
  | None => true
  | Some f => format_eqb f fmt
  end.

(** [const filesToDownload = component.files.filter(...)] *)
Definition filesToDownload (manifest : list ComponentFile) (fmt : Format)
  : list ComponentFile :=
  List.filter (wanted fmt) manifest.

(** The format that was not requested. *)
Definition otherFormat (fmt : Format) : Format :=
  match fmt with
  | tsx => jsx
  | jsx => tsx
  end.

(** The files of a manifest that carry the tag of the other format. *)
Definition excludedFiles (manifest : list ComponentFile) (fmt : Format)
  : list ComponentFile :=
  List.filter
    (fun file =>
       match format file with
       | Some f => format_eqb f (otherFormat fmt)
       | None => false
       end) manifest.

End Catalog.

(** ** The world the CLI runs in: file system, console, network, shell *)

Module Io.

Import Json Catalog.

(** What a path of the target project holds. *)
Inductive node : Type :=
| File (content : string)
| Dir.

(** The exceptions the modelled calls throw. *)
Inductive exn : Type :=
| ENOENT (path : string)          (* no such file or directory *)
| EISDIR (path : string)          (* the path is a directory *)
| EEXIST (path : string)          (* a file stands where a directory is wanted *)
| JsonSyntaxError (path : string) (* [fs.readJson] could not parse *)
| TypeError (what : string)       (* a property read or call on undefined / null *)
| CommandFailed (cmd : string)    (* [execSync]: non-zero exit status *)
| RequestFailed (url : string).   (* [axios.get]: network error or non-2xx *)

Inductive ItemKind : Type := Component | Template.

(** The lines printed with [console.log], one constructor per call site of
    the source (the line of the call is given). *)
Inductive message : Type :=
| MsgCheckingTailwind                         (* 131 *)
| MsgTailwindNotV3                            (* 152 *)
| MsgErrorReadingPackageJson (e : exn)        (* 157 *)
| MsgTailwindNotInstalled                     (* 165 *)
| MsgTailwindConfigMissing                    (* 170 *)
| MsgTailwindReady                            (* 174 *)
| MsgInstallingTailwind                       (* 186 *)
| MsgTailwindInstalled                        (* 198 *)
| MsgCreatingTailwindConfig                   (* 201 *)
| MsgTailwindConfigCreated                    (* 230 *)
| MsgSetupFailed (e : exn)                    (* 237 *)
| MsgManualSteps (installCmd : string)        (* 238 *)
| MsgCssUpdated (cssPath : string)            (* 298 *)
| MsgCssAlreadyHas (cssPath : string)         (* 301 *)
| MsgCssError (cssPath : string) (e : exn)    (* 305 *)
| MsgCssCreated (cssPath : string)            (* 327 *)
| MsgImportReminder (cssPath : string)        (* 330 *)
| MsgCssCreateFailed (e : exn)                (* 335 *)
| MsgInstallingDeps                           (* 356 *)
| MsgDepsInstalled                            (* 359 *)
| MsgDepsFailed                               (* 361 *)
| MsgManualCommand (command : string)         (* 364 *)
| MsgNotFound (k : ItemKind) (name : string)  (* 373, 476 *)
| MsgProceedAfterFailedSetup (k : ItemKind)   (* 392, 495 *)
| MsgProceedWithoutSetup (k : ItemKind)       (* 395, 498 *)
| MsgAdding (k : ItemKind) (name FORMAT : string)     (* 405, 508 *)
| MsgAdded (filename : string)                        (* 419, 522 *)
| MsgFailedToAdd (filename : string) (e : exn)        (* 421, 524 *)
| MsgAddedSuccessfully (k : ItemKind) (name : string) (* 433, 536 *)
| MsgCreatedIndex (indexExt : string)                 (* 451, 557 *)
| MsgUpdatedIndex (indexExt name : string)            (* 458, 564 *)
| MsgExportExists (name indexExt : string)            (* 460, 566 *)
| MsgFailedIndex (indexExt : string) (e : exn).       (* 463, 569 *)

(** The questions asked with [prompts]. *)
Inductive question : Type :=
| AskSetupTailwindNow (k : ItemKind)          (* 382, 485: confirm *)
| AskCssPath.                                 (* 312: text *)

(** Every call that reaches outside the process. *)
Inductive event : Type :=
| EvExists (path : string)                    (* fs.existsSync *)
| EvReadFile (path : string)                  (* fs.readFile, fs.readJson *)
| EvWriteFile (path data : string)            (* fs.writeFile *)
| EvAppendFile (path data : string)           (* fs.appendFile *)
| EvEnsureDir (path : string)                 (* fs.ensureDir *)
| EvGet (url : string)                        (* axios.get *)
| EvExec (cmd : string)                       (* execSync *)
| EvPrompt (q : question)                     (* prompts *)
| EvLog (m : message).                        (* console.log *)

(** The state of the run: the files of the target project and what has
    been done so far, most recent first. *)
Record World : Type := mkWorld {
  fs : gmap string node;
  trace : list event
}.

(** What lies outside the program: the [path] module, the JSON parser, the
    network, the shell and the operator.  The last four may answer
    differently as the run proceeds, so they see the world. *)
Record Env : Type := mkEnv {
  cwd : string;                                         (* process.cwd() *)
  pathJoin : string -> string -> string;                (* path.join *)
  pathDirname : string -> string;                       (* path.dirname *)
  parseJson : string -> option json;                    (* JSON.parse *)
  axiosGet : World -> string -> option string;          (* response.data *)
  runShell : World -> string -> option (gmap string node);
  answerConfirm : World -> question -> bool;
  answerText : World -> question -> option string
}.

(** The outcome of an awaited call. *)
Inductive result (A : Type) : Type :=
| Ok (a : A)
| Throw (e : exn).
Arguments Ok {A} a.
Arguments Throw {A} e.

(** A computation with effects on the world. *)
Definition M (A : Type) : Type := World -> result A * World.

Definition ret {A : Type} (a : A) : M A := fun w => (Ok a, w).

Definition throw {A : Type} (e : exn) : M A := fun w => (Throw e, w).

Definition bind {A B : Type} (m : M A) (k : A -> M B) : M B :=
  fun w =>
    match m w with
    | (Ok a, w') => k a w'
    | (Throw e, w') => (Throw e, w')
    end.

(** [try { m } catch (error) { h error }] *)
Definition tryCatch {A : Type} (m : M A) (h : exn -> M A) : M A :=
  fun w =>
    match m w with
    | (Ok a, w') => (Ok a, w')
    | (Throw e, w') => h e w'
    end.

Declare Scope io_scope.
Delimit Scope io_scope with io.
Bind Scope io_scope with M.

Notation "x <- m ;; k" := (bind m (fun x => k))
  (at level 100, m at next level, k at level 200, right associativity)
  : io_scope.
Notation "m ;;; k" := (bind m (fun _ => k))
  (at level 100, k at level 200, right associativity) : io_scope.

(** The world after one more call. *)
Definition traced (e : event) (w : World) : World :=
  {| fs := fs w; trace := e :: trace w |}.

(** Record a call in the trace. *)
Definition emit (e : event) : M unit := fun w => (Ok tt, traced e w).

Definition setFs (f : gmap string node) : M unit :=
  fun w => (Ok tt, {| fs := f; trace := trace w |}).

Definition getWorld : M World := fun w => (Ok w, w).

(** [console.log] *)
Definition log (m : message) : M unit := emit (EvLog m).

(** [fs.existsSync(path)]: true for a file and for a directory. *)
Definition existsSync (path : string) : M bool :=
  (emit (EvExists path) ;;;
   w <- getWorld ;;
   ret (bool_decide (is_Some (fs w !! path))))%io.

(** [fs.readFile(path, "utf8")] *)
Definition readFile (path : string) : M string :=
  (emit (EvReadFile path) ;;;
   w <- getWorld ;;
   match fs w !! path with
   | Some (File content) => ret content
   | Some Dir => throw (EISDIR path)
   | None => throw (ENOENT path)
   end)%io.

(** [fs.writeFile(path, data)]: creates or replaces the file.  The
    hierarchy of directories is not tracked: a write only fails on a path
    that is itself a directory. *)
Definition writeFile (path data : string) : M unit :=
  (emit (EvWriteFile path data) ;;;
   w <- getWorld ;;
   match fs w !! path with
   | Some Dir => throw (EISDIR path)
   | _ => setFs (<[ path := File data ]> (fs w))
   end)%io.

(** [fs.appendFile(path, data)]: creates the file when it is missing. *)
Definition appendFile (path data : string) : M unit :=
  (emit (EvAppendFile path data) ;;;
   w <- getWorld ;;
   match fs w !! path with
   | Some Dir => throw (EISDIR path)
   | Some (File content) => setFs (<[ path := File (content +:+ data) ]> (fs w))
   | None => setFs (<[ path := File data ]> (fs w))
   end)%io.

(** [fs.ensureDir(path)].  Only the path itself is looked at: the
    directories above it are not tracked, so the failure of the real call
    on a regular file among them (ENOTDIR) has no counterpart here. *)
Definition ensureDir (path : string) : M unit :=
  (emit (EvEnsureDir path) ;;;
   w <- getWorld ;;
   match fs w !! path with
   | Some Dir => ret tt
   | Some (File _) => throw (EEXIST path)
   | None => setFs (<[ path := Dir ]> (fs w))
   end)%io.

(** [fs.readJson(path)] *)
Definition readJson (E : Env) (path : string) : M json :=
  (content <- readFile path ;;
   match parseJson E content with
   | Some v => ret v
   | None => throw (JsonSyntaxError path)
   end)%io.

(** [axios.get(url)], giving [response.data] *)
Definition axios_get (E : Env) (url : string) : M string :=
  (emit (EvGet url) ;;;
   w <- getWorld ;;
   match axiosGet E w url with
   | Some data => ret data
   | None => throw (RequestFailed url)
   end)%io.

(** [execSync(cmd, { stdio: "inherit", cwd: process.cwd() })]: the command
    changes the files of the project as the shell decides, or fails. *)
Definition execSync (E : Env) (cmd : string) : M unit :=
  (emit (EvExec cmd) ;;;
   w <- getWorld ;;
   match runShell E w cmd with
   | Some f => setFs f
   | None => throw (CommandFailed cmd)
   end)%io.

(** [prompts({ type: "confirm", ... })]: a cancelled prompt leaves the
    answer undefined, which is falsy. *)
Definition promptConfirm (E : Env) (q : question) : M bool :=
  (w <- getWorld ;;
   emit (EvPrompt q) ;;;
   ret (answerConfirm E w q))%io.

(** [prompts({ type: "text", ... })]: [None] is the undefined answer of a
    cancelled prompt. *)
Definition promptText (E : Env) (q : question) : M (option string) :=
  (w <- getWorld ;;
   emit (EvPrompt q) ;;;
   ret (answerText E w q))%io.

End Io.

(** ** The command-line installer *)

Module Cli.

Import Js Json Catalog Io.
Local Open Scope io_scope.

(** The double quote of the hardcoded configuration texts. *)
Definition DQ : string := String (ascii_of_nat 34) EmptyString.

(** The package managers the tool shells out to. *)
Inductive PackageManager : Type := npm | yarn | pnpm.

(** The detection of [setupTailwind] (lines 180-184). *)
Definition detectPackageManager_setupTailwind (E : Env) : M PackageManager :=
  hasYarn <- existsSync (pathJoin E (cwd E) "yarn.lock") ;;
  if hasYarn then ret yarn
  else
    hasPnpm <- existsSync (pathJoin E (cwd E) "pnpm-lock.yaml") ;;
    if hasPnpm then ret pnpm else ret npm.

(** The detection of [installDependencies] (lines 343-347). *)
Definition detectPackageManager_installDependencies (E : Env)
  : M PackageManager :=
  hasYarn <- existsSync (pathJoin E (cwd E) "yarn.lock") ;;
  if hasYarn then ret yarn
  else
    hasPnpm <- existsSync (pathJoin E (cwd E) "pnpm-lock.yaml") ;;
    if hasPnpm then ret pnpm else ret npm.

(** [version.startsWith("^3") || version.startsWith("~3") ||
    version.startsWith("3")] *)
Definition isV3 (version : string) : bool :=
  startsWith version "^3" || startsWith version "~3" || startsWith version "3".

(** The [try] block of [checkTailwindSetup] (lines 141-155).  [None] is the
    early [return false] of line 153, [Some b] falls through with
    [isTailwindInstalled = b]. *)
Definition readTailwindDependency (E : Env) (packageJsonPath : string)
  : M (option bool) :=
  packageJson <- readJson E packageJsonPath ;;
  match getField packageJson "dependencies",
        getField packageJson "devDependencies" with
  | Some deps, Some devDeps =>
      let tailwindcss := spreadProp deps devDeps "tailwindcss" in
      let isTailwindInstalled := truthy tailwindcss in
      if isTailwindInstalled then
        match tailwindcss with
        | Some (JStr version) =>
            if negb (isV3 version) then log MsgTailwindNotV3 ;;; ret None
            else ret (Some isTailwindInstalled)
        | _ => throw (TypeError "version.startsWith is not a function")
        end
      else ret (Some isTailwindInstalled)
  | _, _ => throw (TypeError "cannot read properties of null")
  end.

(** [async function checkTailwindSetup()] *)
Definition checkTailwindSetup (E : Env) : M bool :=
  log MsgCheckingTailwind ;;;
  let packageJsonPath := pathJoin E (cwd E) "package.json" in
  let tailwindConfigPath := pathJoin E (cwd E) "tailwind.config.js" in
  let postcssConfigPath := pathJoin E (cwd E) "postcss.config.js" in
  r <- tryCatch (readTailwindDependency E packageJsonPath)
         (fun error => log (MsgErrorReadingPackageJson error) ;;; ret None) ;;
  match r with
  | None => ret false
  | Some isTailwindInstalled =>
      hasTailwindConfig <- existsSync tailwindConfigPath ;;
      isTailwindConfigured <-
        (if hasTailwindConfig then existsSync postcssConfigPath
         else ret false) ;;
      if negb isTailwindInstalled then
        log MsgTailwindNotInstalled ;;; ret false
      else if negb isTailwindConfigured then
        log MsgTailwindConfigMissing ;;; ret false
      else
        log MsgTailwindReady ;;; ret true
  end.

(** [const tailwindConfigContent] (lines 205-215) *)
Definition tailwindConfigContent : string :=
  join LF
    [ "/** @type {import('tailwindcss').Config} */";
      "export default {";
      "  content: [";
      "    " +:+ DQ +:+ "./index.html" +:+ DQ +:+ ",";
      "    " +:+ DQ +:+ "./src/**/*.{js,ts,jsx,tsx}" +:+ DQ +:+ ",";
      "  ],";
      "  theme: {";
      "    extend: {},";
      "  },";
      "  plugins: [],";
      "}" ].

(** [const postcssConfigContent] (lines 219-224) *)
Definition postcssConfigContent : string :=
  join LF
    [ "export default {";
      "  plugins: {";
      "    tailwindcss: {},";
      "    autoprefixer: {},";
      "  },";
      "}" ].

(** [const possibleCssPaths] (lines 274-282) *)
Definition possibleCssPaths : list string :=
  [ "src/styles/globals.css";
    "src/styles/global.css";
    "src/index.css";
    "src/App.css";
    "styles/globals.css";
    "styles/global.css";
    "css/main.css" ].

(** [const tailwindDirectives] (lines 284-287) *)
Definition tailwindDirectives : string :=
  "@tailwind base;" +:+ LF +:+
  "@tailwind components;" +:+ LF +:+
  "@tailwind utilities;" +:+ LF.

(** The [for] loop of [createTailwindCSSFile] (lines 290-308); the result
    says whether the function returned from inside the loop. *)
Fixpoint updateExistingCss (E : Env) (paths : list string) : M bool :=
  match paths with
  | [] => ret false
  | cssPath :: rest =>
      let fullPath := pathJoin E (cwd E) cssPath in
      found <- existsSync fullPath ;;
      if found then
        returned <-
          tryCatch
            (cssContent <- readFile fullPath ;;
             if negb (includes cssContent "@tailwind") then
               writeFile fullPath (tailwindDirectives +:+ cssContent) ;;;
               log (MsgCssUpdated cssPath) ;;;
               ret true
             else
               log (MsgCssAlreadyHas cssPath) ;;;
               ret true)
            (fun error => log (MsgCssError cssPath error) ;;; ret false) ;;
        if returned then ret true else updateExistingCss E rest
      else updateExistingCss E rest
  end.

(** The rest of [createTailwindCSSFile] (lines 310-336): ask the operator
    where to create the stylesheet. *)
Definition createNewCss (E : Env) : M unit :=
  answer <- promptText E AskCssPath ;;
  match answer with
  | None => throw (TypeError "the path argument must be of type string")
  | Some cssPath =>
      let fullPath := pathJoin E (cwd E) cssPath in
      tryCatch
        (ensureDir (pathDirname E fullPath) ;;;
         writeFile fullPath tailwindDirectives ;;;
         log (MsgCssCreated cssPath) ;;;
         log (MsgImportReminder cssPath))
        (fun error => log (MsgCssCreateFailed error))
  end.

(** [async function createTailwindCSSFile()] *)
Definition createTailwindCSSFile (E : Env) : M unit :=
  returned <- updateExistingCss E possibleCssPaths ;;
  if returned then ret tt else createNewCss E.

(** [const installCmd] of [setupTailwind] (lines 189-194) *)
Definition tailwindInstallCmd (pm : PackageManager) : string :=
  match pm with
  | npm => "npm install -D tailwindcss@3 postcss autoprefixer"
  | yarn => "yarn add -D tailwindcss@3 postcss autoprefixer"
  | pnpm => "pnpm add -D tailwindcss@3 postcss autoprefixer"
  end.

(** [async function setupTailwind()] *)
Definition setupTailwind (E : Env) : M bool :=
  pm <- detectPackageManager_setupTailwind E ;;
  log MsgInstallingTailwind ;;;
  let installCmd := tailwindInstallCmd pm in
  tryCatch
    (execSync E installCmd ;;;
     log MsgTailwindInstalled ;;;
     log MsgCreatingTailwindConfig ;;;
     let tailwindConfigPath := pathJoin E (cwd E) "tailwind.config.js" in
     let postcssConfigPath := pathJoin E (cwd E) "postcss.config.js" in
     writeFile tailwindConfigPath tailwindConfigContent ;;;
     writeFile postcssConfigPath postcssConfigContent ;;;
     log MsgTailwindConfigCreated ;;;
     createTailwindCSSFile E ;;;
     ret true)
    (fun error =>
       log (MsgSetupFailed error) ;;;
       log (MsgManualSteps installCmd) ;;;
       ret false).

(** [const command] of [installDependencies] (lines 349-354) *)
Definition installCommand (pm : PackageManager) (dev : bool)
    (deps : list string) : string :=
  match pm with
  | npm =>
      "npm install " +:+ (if dev then "--save-dev" else "") +:+ " " +:+
      join " " deps
  | yarn =>
      "yarn add " +:+ (if dev then "--dev" else "") +:+ " " +:+ join " " deps
  | pnpm =>
      "pnpm add " +:+ (if dev then "--save-dev" else "") +:+ " " +:+
      join " " deps
  end.

(** [async function installDependencies(deps, dev = false)] *)
Definition installDependencies (E : Env) (deps : list string) (dev : bool)
  : M unit :=
  match deps with
  | [] => ret tt
  | _ :: _ =>
      pm <- detectPackageManager_installDependencies E ;;
      let command := installCommand pm dev deps in
      log MsgInstallingDeps ;;;
      tryCatch
        (execSync E command ;;; log MsgDepsInstalled)
        (fun error => log MsgDepsFailed ;;; log (MsgManualCommand command))
  end.

(** The Tailwind gate of [fetchComponent] (lines 378-398) and of
    [fetchTemplate] (lines 481-501), which differ in their messages only. *)
Definition requireTailwind (E : Env) (k : ItemKind)
    (requiresTailwind : option bool) : M unit :=
  match requiresTailwind with
  | Some true =>
      isTailwindReady <- checkTailwindSetup E ;;
      if negb isTailwindReady then
        setupTailwindNow <- promptConfirm E (AskSetupTailwindNow k) ;;
        if setupTailwindNow then
          success <- setupTailwind E ;;
          if negb success then log (MsgProceedAfterFailedSetup k) else ret tt
        else log (MsgProceedWithoutSetup k)
      else ret tt
  | _ => ret tt
  end.

(** The download loop (lines 413-427 and 516-530): each file is fetched
    and written on its own, a failure is reported and the loop goes on. *)
Fixpoint downloadFiles (E : Env) (dir : string)
    (filesToDownload : list ComponentFile) : M unit :=
  match filesToDownload with
  | [] => ret tt
  | file :: rest =>
      let destPath := pathJoin E dir (filename file) in
      tryCatch
        (data <- axios_get E (url file) ;;
         writeFile destPath data ;;;
         log (MsgAdded (filename file)))
        (fun error => log (MsgFailedToAdd (filename file) error)) ;;;
      downloadFiles E dir rest
  end.

(** [const indexExt = format === "tsx" ? "ts" : "js"] *)
Definition indexExt (fmt : Format) : string :=
  match fmt with
  | tsx => "ts"
  | jsx => "js"
  end.

(** The export line of lines 445 and 551. *)
Definition exportStatement (symbol itemName : string) (fmt : Format)
  : string :=
  "export { default as " +:+ symbol +:+ " } from './" +:+ itemName +:+ "/" +:+
  symbol +:+ "." +:+ formatText fmt +:+ "';" +:+ LF.

(** The [try] block that updates the index file (lines 447-468 and
    553-574). *)
Definition updateIndex (E : Env) (fullTargetDir itemName : string)
    (fmt : Format) (statement : string) : M unit :=
  let generalIndexPath :=
    pathJoin E fullTargetDir ("index." +:+ indexExt fmt) in
  tryCatch
    (found <- existsSync generalIndexPath ;;
     (if negb found then
        writeFile generalIndexPath "" ;;;
        log (MsgCreatedIndex (indexExt fmt))
      else ret tt) ;;;
     currentContent <- readFile generalIndexPath ;;
     if negb (includes currentContent statement) then
       appendFile generalIndexPath statement ;;;
       log (MsgUpdatedIndex (indexExt fmt) itemName)
     else
       log (MsgExportExists itemName (indexExt fmt)))
    (fun error => log (MsgFailedIndex (indexExt fmt) error)).

(** The index step of [fetchComponent] (lines 439-468): the exported symbol
    is the capitalised component name. *)
Definition updateComponentIndex (E : Env) (fullTargetDir componentName : string)
    (fmt : Format) : M unit :=
  let componentName_capitalized := capitalize componentName in
  updateIndex E fullTargetDir componentName fmt
    (exportStatement componentName_capitalized componentName fmt).

(** [filesToDownload[0].filename.split('.')[0]] (line 547): reading
    [filename] of the undefined first element of an empty array throws. *)
Definition templateClassName (filesToDownload : list TemplateFile)
  : result string :=
  match filesToDownload with
  | [] => Throw (TypeError "cannot read properties of undefined")
  | first :: _ => Ok (beforeFirstDot (filename first))
  end.

(** The index step of [fetchTemplate] (lines 542-574). *)
Definition updateTemplateIndex (E : Env) (fullTargetDir templateName : string)
    (filesToDownload : list TemplateFile) (fmt : Format) : M unit :=
  match templateClassName filesToDownload with
  | Throw e => throw e
  | Ok className =>
      updateIndex E fullTargetDir templateName fmt
        (exportStatement className templateName fmt)
  end.

(** [async function fetchComponent(componentName, targetDir, format)] *)
Definition fetchComponent (E : Env) (componentName targetDir : string)
    (fmt : Format) : M unit :=
  let fullTargetDir := pathJoin E (cwd E) targetDir in
  let componentDir := pathJoin E fullTargetDir componentName in
  match jsLookup components componentName with
  | Undefined => log (MsgNotFound Component componentName)
  | Inherited =>
      (* [component] is truthy, [component.requiresTailwind] is undefined and
         so is [component.files]: the call of [filter] on it throws *)
      ensureDir componentDir ;;;
      log (MsgAdding Component componentName (toUpperCase (formatText fmt))) ;;;
      throw (TypeError "cannot read properties of undefined")
  | Own component =>
      requireTailwind E Component (requiresTailwind component) ;;;
      ensureDir componentDir ;;;
      log (MsgAdding Component componentName (toUpperCase (formatText fmt))) ;;;
      let filesToDownload := filesToDownload (files component) fmt in
      downloadFiles E componentDir filesToDownload ;;;
      installDependencies E (dependencies component) false ;;;
      installDependencies E (devDependencies component) true ;;;
      log (MsgAddedSuccessfully Component componentName) ;;;
      updateComponentIndex E fullTargetDir componentName fmt
  end.

(** [async function fetchTemplate(templateName, targetDir, format)] *)
Definition fetchTemplate (E : Env) (templateName targetDir : string)
    (fmt : Format) : M unit :=
  let fullTargetDir := pathJoin E (cwd E) targetDir in
  let templateDir := pathJoin E fullTargetDir templateName in
  match jsLookup templates templateName with
  | Undefined => log (MsgNotFound Template templateName)
  | Inherited =>
      ensureDir templateDir ;;;
      log (MsgAdding Template templateName (toUpperCase (formatText fmt))) ;;;
      throw (TypeError "cannot read properties of undefined")
  | Own template =>
      requireTailwind E Template (template_requiresTailwind template) ;;;
      ensureDir templateDir ;;;
      log (MsgAdding Template templateName (toUpperCase (formatText fmt))) ;;;
      let filesToDownload := filesToDownload (template_files template) fmt in
      downloadFiles E templateDir filesToDownload ;;;
      installDependencies E (template_dependencies template) false ;;;
      installDependencies E (template_devDependencies template) true ;;;
      log (MsgAddedSuccessfully Template templateName) ;;;
      updateTemplateIndex E fullTargetDir templateName filesToDownload fmt
  end.

(** *** Notions the properties are stated with *)

(** The rule of the specification: a yarn lockfile means yarn, else a pnpm
    lockfile means pnpm, else npm. *)
Definition lockfileRule (hasYarnLock hasPnpmLock : bool) : PackageManager :=
  if hasYarnLock then yarn else if hasPnpmLock then pnpm else npm.

(** Whether a path relative to the project root exists. *)
Definition existsInProject (E : Env) (w : World) (rel : string) : bool :=
  bool_decide (is_Some (fs w !! pathJoin E (cwd E) rel)).

(** The dev-install flag of each package manager. *)
Definition devFlag (pm : PackageManager) : string :=
  match pm with
  | npm => "--save-dev"
  | yarn => "--dev"
  | pnpm => "--save-dev"
  end.

(** The install verb of each package manager. *)
Definition installVerb (pm : PackageManager) : string :=
  match pm with
  | npm => "npm install"
  | yarn => "yarn add"
  | pnpm => "pnpm add"
  end.

(** The shell commands among a list of events. *)
Definition shellCommands (events : list event) : list string :=
  omap (fun e => match e with EvExec cmd => Some cmd | _ => None end) events.

(** The index file of a target directory for a format. *)
Definition indexPath (E : Env) (fullTargetDir : string) (fmt : Format)
  : string :=
  pathJoin E fullTargetDir ("index." +:+ indexExt fmt).

(** The text of the file at a path: empty when there is no file. *)
Definition fileText (w : World) (path : string) : string :=
  match fs w !! path with
  | Some (File content) => content
  | _ => ""
  end.

(** What the second of two identical index updates does: it looks for the
    file, reads it and reports the export as already there. *)
Definition secondUpdateEvents (indexPath itemName : string) (fmt : Format)
  : list event :=
  [ EvLog (MsgExportExists itemName (indexExt fmt));
    EvReadFile indexPath;
    EvExists indexPath ].

(** Two runs in a row of an index update [step] on the world [w]: both
    return, the index file then holds the line exactly once, and the second
    run changed no file and did nothing but look, read and report. *)
Definition appendsOnce (step : M unit) (indexPath itemName : string)
    (fmt : Format) (statement : string) (w : World) : Prop :=
  exists w1 w2 content,
    step w = (Ok tt, w1) /\
    step w1 = (Ok tt, w2) /\
    fs w2 !! indexPath = Some (File content) /\
    occurrences statement content = 1 /\
    fs w2 = fs w1 /\
    trace w2 = secondUpdateEvents indexPath itemName fmt ++ trace w1.


(** The index step as [fetchComponent] and [fetchTemplate] run it for an
    item of their catalog (lines 439-468 and 542-574). *)
Definition indexStep (E : Env) (k : ItemKind) (fullTargetDir name : string)
    (fmt : Format) : M unit :=
  match k with
  | Component => updateComponentIndex E fullTargetDir name fmt
  | Template =>
      match templates !! name with
      | Some template =>
          updateTemplateIndex E fullTargetDir name
            (filesToDownload (template_files template) fmt) fmt
      | None => ret tt
      end
  end.

(** Whether a name is a key of the catalog of its kind. *)
Definition inCatalog (k : ItemKind) (name : string) : bool :=
  match k with
  | Component => bool_decide (is_Some (components !! name))
  | Template => bool_decide (is_Some (templates !! name))
  end.

(** The export line the index step of an item generates. *)
Definition indexStatement (k : ItemKind) (name : string) (fmt : Format)
  : string :=
  match k with
  | Component => exportStatement (capitalize name) name fmt
  | Template =>
      match templates !! name with
      | Some template =>
          match templateClassName
                  (filesToDownload (template_files template) fmt) with
          | Ok className => exportStatement className name fmt
          | Throw _ => ""
          end
      | None => ""
      end
  end.

(** The export line without its final line feed. *)
Definition exportBody (symbol itemName : string) (fmt : Format) : string :=
  "export { default as " +:+ symbol +:+ " } from './" +:+ itemName +:+ "/" +:+
  symbol +:+ "." +:+ formatText fmt +:+ "';".

(** A project directory to run the tool in: paths are joined with a slash,
    package.json is not parsed, the network is down, shell commands succeed
    and change nothing, and the operator confirms and names the default
    stylesheet. *)
Definition demoEnv : Env :=
  {| cwd := "/project";
     pathJoin := fun a b => a +:+ "/" +:+ b;
     pathDirname := fun p => p +:+ "/..";
     parseJson := fun _ => None;
     axiosGet := fun _ _ => None;
     runShell := fun w _ => Some (fs w);
     answerConfirm := fun _ _ => true;
     answerText := fun _ _ => Some "src/styles/global.css" |}.

(** The empty project, before anything was done. *)
Definition emptyWorld : World := {| fs := ∅; trace := [] |}.


(** The questions asked among a list of events. *)
Definition promptsAsked (events : list event) : list question :=
  omap (fun e => match e with EvPrompt q => Some q | _ => None end) events.

(** The first of a list of conventional paths that holds a regular file,
    with the text of that file. *)
Fixpoint firstStylesheet (E : Env) (files : gmap string node)
    (paths : list string) : option (string * string) :=
  match paths with
  | [] => None
  | cssPath :: rest =>
      match files !! pathJoin E (cwd E) cssPath with
      | Some (File content) => Some (cssPath, content)
      | _ => firstStylesheet E files rest
      end
  end.

(** What the locator leaves of a stylesheet it found: the file as it is
    when it already has the marker, else the directives put before its
    text. *)
Definition withDirectives (E : Env) (files : gmap string node)
    (cssPath content : string) : gmap string node :=
  if includes content "@tailwind" then files
  else <[ pathJoin E (cwd E) cssPath := File (tailwindDirectives +:+ content) ]>
         files.

(** A project in which the first conventional stylesheet path is a
    directory. *)
Definition globalsDirWorld : World :=
  {| fs := {[ "/project/src/styles/globals.css" := Dir ]}; trace := [] |}.


(** The stylesheet step never writes to [path]: no conventional stylesheet
    path and no answer of the operator resolves to it. *)
Definition stylesheetAvoids (E : Env) (path : string) : Prop :=
  (forall cssPath,
     List.In cssPath possibleCssPaths -> pathJoin E (cwd E) cssPath <> path) /\
  (forall w cssPath,
     answerText E w AskCssPath = Some cssPath ->
     pathJoin E (cwd E) cssPath <> path).

(** A project that already has a tailwind.config.js of its own, and no
    package.json entry for Tailwind. *)
Definition staleConfigWorld : World :=
  {| fs := {[ "/project/tailwind.config.js" := File "module.exports = {}" ]};
     trace := [] |}.


(** The major version a dependency range asks for is 3: after an optional
    caret or tilde, the text before the first dot is "3".  This is the
    reading of "the required major version" the check is compared with; it
    is not a function of the source. *)
Definition hasMajorVersion3 (version : string) : bool :=
  let core :=
    match version with
    | String c rest =>
        if Ascii.eqb c "^"%char || Ascii.eqb c "~"%char then rest else version
    | EmptyString => version
    end in
  String.eqb (beforeFirstDot core) "3".

(** The text of a package.json that asks for Tailwind 30. *)
Definition packageJson30Text : string :=
  "{" +:+ DQ +:+ "devDependencies" +:+ DQ +:+ ":{" +:+ DQ +:+ "tailwindcss" +:+
  DQ +:+ ":" +:+ DQ +:+ "30.0.0" +:+ DQ +:+ "}}".

(** What [JSON.parse] makes of it. *)
Definition packageJson30 : json :=
  JObj [ ("devDependencies", JObj [ ("tailwindcss", JStr "30.0.0") ]) ].

(** [demoEnv] with a parser that knows that one text. *)
Definition tailwind30Env : Env :=
  {| cwd := cwd demoEnv;
     pathJoin := pathJoin demoEnv;
     pathDirname := pathDirname demoEnv;
     parseJson := fun text =>
       if String.eqb text packageJson30Text then Some packageJson30 else None;
     axiosGet := axiosGet demoEnv;
     runShell := runShell demoEnv;
     answerConfirm := answerConfirm demoEnv;
     answerText := answerText demoEnv |}.

(** A project with Tailwind 30 installed and both configuration files. *)
Definition tailwind30World : World :=
  {| fs :=
       <[ "/project/package.json" := File packageJson30Text ]>
       (<[ "/project/tailwind.config.js" := File tailwindConfigContent ]>
        (<[ "/project/postcss.config.js" := File postcssConfigContent ]> ∅));
     trace := [] |}.

End Cli.

(** ** The toast queue of the Toaster component *)

Module Toaster.

Import Js.

(** [type ToastAction]: what is dispatched to the reducer; the payload of
    [ADD_TOAST] is the toast, that of [REMOVE_TOAST] an id. *)
Inductive ToastAction (T : Type) : Type :=
| ADD_TOAST (payload : T)
| REMOVE_TOAST (payload : string).
Arguments ADD_TOAST {T} payload.
Arguments REMOVE_TOAST {T} payload.

(** [const toastReducer = (state, action) => ...], the same in Toaster.tsx
    and Toaster.jsx; [toast_id] reads [toast.id]. *)
Definition toastReducer {T : Type} (toast_id : T -> string) (state : list T)
    (action : ToastAction T) : list T :=
  match action with
  | ADD_TOAST payload => state ++ [payload]
  | REMOVE_TOAST payload =>
      List.filter (fun toast => negb (String.eqb (toast_id toast) payload)) state
  end.

(** [const visibleToasts = toasts.slice(0, maxToasts)] *)
Definition visibleToasts {T : Type} (toasts : list T) (maxToasts : Z)
  : list T :=
  slice0 toasts maxToasts.

(** The default of the [maxToasts] property. *)
Definition defaultMaxToasts : Z := 5.

(** [interface ToastOptions] of Toaster.tsx; the icon is an opaque
    element. *)
Record ToastOptions : Type := mkToastOptions {
  id : string;
  message : string;
  duration : option Z;
  icon : option string;
  animationVariant : option string;
  type : option string
}.

(** [Partial<ToastOptions>]: every field may be missing. *)
Record PartialToastOptions : Type := mkPartial {
  opt_id : option string;
  opt_message : option string;
  opt_duration : option Z;
  opt_icon : option string;
  opt_animationVariant : option string;
  opt_type : option string
}.

(** [options || {}] *)
Definition noOptions : PartialToastOptions :=
  mkPartial None None None None None None.

(** The payload built by [addToast] of Toaster.tsx (lines 347-353):
    [{ id, message, duration, animationVariant, ...options }], where
    [duration] and [animationVariant] default to 5000 and "modern"; [rnd]
    is the id drawn with [Math.random].  A field of the options is a key
    with a defined value or a missing key; a key that is present with the
    value [undefined] is not represented. *)
Definition tsxPayload (rnd message : string)
    (options : option PartialToastOptions) : ToastOptions :=
  let o := default noOptions options in
  {| id := default rnd (opt_id o);
     message := default message (opt_message o);
     duration := Some (default 5000%Z (opt_duration o));
     icon := opt_icon o;
     animationVariant := Some (default "modern" (opt_animationVariant o));
     type := opt_type o |}.

(** The toast of Toaster.jsx: [{ id, message, type, duration, variant }]. *)
Record JsxToast : Type := mkJsxToast {
  jsx_id : string;
  jsx_message : string;
  jsx_type : string;
  jsx_duration : Z;
  jsx_variant : string
}.

(** What a consumer can call on the provider of Toaster.tsx; each call
    dispatches one action. *)
Inductive TsxCall : Type :=
| TsxAddToast (rnd message : string) (options : option PartialToastOptions)
| TsxRemoveToast (id : string).

Definition tsxAction (c : TsxCall) : ToastAction ToastOptions :=
  match c with
  | TsxAddToast rnd message options =>
      ADD_TOAST (tsxPayload rnd message options)
  | TsxRemoveToast id => REMOVE_TOAST id
  end.

(** The payload built by [addToast] of Toaster.jsx (lines 352-358):
    [addToast(message, type = TOAST_TYPES.INFO, duration = defaultDuration,
    variant = "modern")]; a missing argument takes its default. *)
Definition jsxPayload (defaultDuration : Z) (rnd message : string)
    (type : option string) (duration : option Z) (variant : option string)
  : JsxToast :=
  {| jsx_id := rnd;
     jsx_message := message;
     jsx_type := default "info" type;
     jsx_duration := default defaultDuration duration;
     jsx_variant := default "modern" variant |}.

(** The same for Toaster.jsx. *)
Inductive JsxCall : Type :=
| JsxAddToast (rnd message : string) (type : option string)
    (duration : option Z) (variant : option string)
| JsxRemoveToast (id : string).

Definition jsxAction (defaultDuration : Z) (c : JsxCall)
  : ToastAction JsxToast :=
  match c with
  | JsxAddToast rnd message type duration variant =>
      ADD_TOAST (jsxPayload defaultDuration rnd message type duration variant)
  | JsxRemoveToast id => REMOVE_TOAST id
  end.

(** The state of [useReducer(toastReducer, [])] after a sequence of
    dispatched actions. *)
Definition dispatchAll {T : Type} (toast_id : T -> string)
    (actions : list (ToastAction T)) : list T :=
  fold_left (toastReducer toast_id) actions [].

(** The toasts that were ever added by a sequence of actions, in the order
    of their insertion. *)
Fixpoint inserted {T : Type} (actions : list (ToastAction T)) : list T :=
  match actions with
  | [] => []
  | ADD_TOAST payload :: rest => payload :: inserted rest
  | REMOVE_TOAST _ :: rest => inserted rest
  end.

(** What is rendered of the queue reached by a sequence of dispatched
    actions, for a non-negative [maxToasts]: the first [maxToasts] toasts of
    the queue, so at most [maxToasts] (five by default); the queue holds
    toasts in the order of their insertion; and removing an id keeps the
    other toasts, in the same order. *)
Definition boundedQueue {T : Type} (toast_id : T -> string)
    (actions : list (ToastAction T)) (maxToasts : Z) : Prop :=
  let toasts := dispatchAll toast_id actions in
  visibleToasts toasts maxToasts = firstn (Z.to_nat maxToasts) toasts /\
  (Z.of_nat (length (visibleToasts toasts maxToasts)) <= maxToasts)%Z /\
  visibleToasts toasts defaultMaxToasts = firstn 5 toasts /\
  sublist toasts (inserted actions) /\
  forall id,
    let remaining := toastReducer toast_id toasts (REMOVE_TOAST id) in
    sublist remaining toasts /\
    forall toast,
      List.In toast remaining <->
      List.In toast toasts /\ toast_id toast <> id.


End Toaster.

(** ** What a computation does to the world *)

Module Effects.

Import Js Json Catalog Io Cli.

(** The calls that only look at the project or print: [fs.existsSync],
    [fs.readFile] and [console.log]. *)
Definition isReadOnly (e : event) : bool :=
  match e with
  | EvExists _ | EvReadFile _ | EvLog _ => true
  | _ => false
  end.

(** Every call but [axios.get]. *)
Definition isNotGet (e : event) : bool :=
  match e with
  | EvGet _ => false
  | _ => true
  end.

(** Every call but [execSync]. *)
Definition isNotExec (e : event) : bool :=
  match e with
  | EvExec _ => false
  | _ => true
  end.

(** The URLs requested among a list of events, most recent first. *)
Definition gets (events : list event) : list string :=
  omap (fun e => match e with EvGet url => Some url | _ => None end) events.

(** [m] adds to the trace, and only calls that satisfy [P]. *)
Definition emitsOnly {A : Type} (P : event -> bool) (m : M A) : Prop :=
  forall w,
    exists new,
      trace (snd (m w)) = new ++ trace w /\ forallb P new = true.

(** [m] leaves every file of the project as it is. *)
Definition keepsFiles {A : Type} (m : M A) : Prop :=
  forall w, fs (snd (m w)) = fs w.

(** [m] always returns: the promise is never rejected. *)
Definition neverThrows {A : Type} (m : M A) : Prop :=
  forall w, exists a, fst (m w) = Ok a.

(** [demoEnv] with a shell in which every command fails. *)
Definition failingShellEnv : Env :=
  {| cwd := cwd demoEnv;
     pathJoin := pathJoin demoEnv;
     pathDirname := pathDirname demoEnv;
     parseJson := parseJson demoEnv;
     axiosGet := axiosGet demoEnv;
     runShell := fun _ _ => None;
     answerConfirm := answerConfirm demoEnv;
     answerText := answerText demoEnv |}.

(** [demoEnv] with an operator who declines and cancels every prompt. *)
Definition decliningEnv : Env :=
  {| cwd := cwd demoEnv;
     pathJoin := pathJoin demoEnv;
     pathDirname := pathDirname demoEnv;
     parseJson := parseJson demoEnv;
     axiosGet := axiosGet demoEnv;
     runShell := runShell demoEnv;
     answerConfirm := fun _ _ => false;
     answerText := fun _ _ => None |}.


(** [fetchComponent] or [fetchTemplate], by the kind of the item. *)
Definition fetchItem (E : Env) (k : ItemKind) (name targetDir : string)
    (fmt : Format) : M unit :=
  match k with
  | Component => fetchComponent E name targetDir fmt
  | Template => fetchTemplate E name targetDir fmt
  end.

(** The directory an item is installed into. *)
Definition itemDir (E : Env) (targetDir name : string) : string :=
  pathJoin E (pathJoin E (cwd E) targetDir) name.

(** A project in which a regular file stands where the directory of the
    button is wanted; Tailwind is not set up. *)
Definition buttonFileWorld : World :=
  {| fs := {[ "/project/src/components/button" := File "" ]}; trace := [] |}.


(** Where the download loop writes a file of the manifest. *)
Definition destPath (E : Env) (dir : string) (file : ComponentFile) : string :=
  pathJoin E dir (filename file).

(** [demoEnv] with a network that serves every URL the text "/* " followed
    by the URL. *)
Definition onlineEnv : Env :=
  {| cwd := cwd demoEnv;
     pathJoin := pathJoin demoEnv;
     pathDirname := pathDirname demoEnv;
     parseJson := parseJson demoEnv;
     axiosGet := fun _ url => Some ("/* " +:+ url);
     runShell := runShell demoEnv;
     answerConfirm := answerConfirm demoEnv;
     answerText := answerText demoEnv |}.

(** The files of the button in the tsx format. *)
Definition buttonTsxFiles : list ComponentFile :=
  [ mkFile "Button.tsx" (rawHost +:+ "components/button/Button.tsx") (Some tsx);
    mkFile "button-animations.css"
      (rawHost +:+ "components/button/button-animations.css") None ].


(** The calls that only look at the project, print, or ask the operator. *)
Definition isReadOrAsk (e : event) : bool :=
  match e with
  | EvExists _ | EvReadFile _ | EvLog _ | EvPrompt _ => true
  | _ => false
  end.


(** A project with a stylesheet at a conventional path, without the
    directives, and a directory at an earlier conventional path. *)
Definition indexCssWorld : World :=
  {| fs :=
       <[ "/project/src/styles/globals.css" := Dir ]>
       {[ "/project/src/index.css" := File "body { margin: 0 }" ]};
     trace := [] |}.


(** The file list of an item of a catalog; empty for a name that is not a
    key. *)
Definition catalogFiles (k : ItemKind) (name : string) : list ComponentFile :=
  match k with
  | Component => default [] (files <$> components !! name)
  | Template => default [] (template_files <$> templates !! name)
  end.


(** The conventional paths the loop of the locator meets before the first
    regular file and cannot read: those that are directories. *)
Fixpoint unreadableBefore (E : Env) (files : gmap string node)
    (paths : list string) : list string :=
  match paths with
  | [] => []
  | cssPath :: rest =>
      match files !! pathJoin E (cwd E) cssPath with
      | Some (File _) => []
      | Some Dir => cssPath :: unreadableBefore E files rest
      | None => unreadableBefore E files rest
      end
  end.

(** The warnings of the locator (line 305) among a list of events, most
    recent first: the path named and the error. *)
Definition cssWarnings (events : list event) : list (string * exn) :=
  omap (fun e =>
          match e with
          | EvLog (MsgCssError cssPath error) => Some (cssPath, error)
          | _ => None
          end) events.

(** What the locator does at the stylesheet it stops at, most recent
    first: it looks, reads, and either reports the directives as already
    there or writes them before the text and reports the update. *)
Definition foundEvents (E : Env) (cssPath content : string) : list event :=
  let fullPath := pathJoin E (cwd E) cssPath in
  if includes content "@tailwind" then
    [ EvLog (MsgCssAlreadyHas cssPath); EvReadFile fullPath; EvExists fullPath ]
  else
    [ EvLog (MsgCssUpdated cssPath);
      EvWriteFile fullPath (tailwindDirectives +:+ content);
      EvReadFile fullPath;
      EvExists fullPath ].






End Effects.

(** ** The calls of the toast provider and of the toast service *)

Module ToasterExtra.

Import Js Toaster.

(** [addToast] of Toaster.tsx (lines 347-355): the action it dispatches and
    the id it returns, which is the generated one. *)
Definition addToast_tsx (rnd message : string)
    (options : option PartialToastOptions)
  : string * ToastAction ToastOptions :=
  (rnd, ADD_TOAST (tsxPayload rnd message options)).

(** [addToast] of Toaster.jsx (lines 352-361). *)
Definition addToast_jsx (defaultDuration : Z) (rnd message : string)
    (type : option string) (duration : option Z) (variant : option string)
  : string * ToastAction JsxToast :=
  (rnd,
   ADD_TOAST (jsxPayload defaultDuration rnd message type duration variant)).

(** [removeToast] of both providers. *)
Definition removeToast {T : Type} (id : string) : ToastAction T :=
  REMOVE_TOAST id.

(** The methods of [ToastService] (useToastService.ts) and of the [Toast]
    object of Toaster.tsx. *)
Inductive ServiceMethod : Type := success | error | warning | info.

Definition methodType (m : ServiceMethod) : string :=
  match m with
  | success => "success"
  | error => "error"
  | warning => "warning"
  | info => "info"
  end.

(** [{ ...options, type: "success" }]: the options of the caller with the
    type of the method put last. *)
Definition withType (options : option PartialToastOptions) (type : string)
  : PartialToastOptions :=
  let o := default noOptions options in
  {| opt_id := opt_id o;
     opt_message := opt_message o;
     opt_duration := opt_duration o;
     opt_icon := opt_icon o;
     opt_animationVariant := opt_animationVariant o;
     opt_type := Some type |}.

(** [ToastService.success(message, options)] and its three siblings, called
    under a provider: [addToast(message, { ...options, type })]. *)
Definition toastService (m : ServiceMethod) (rnd message : string)
    (options : option PartialToastOptions)
  : string * ToastAction ToastOptions :=
  addToast_tsx rnd message (Some (withType options (methodType m))).

End ToasterExtra.

(** * Properties *)

(** ** Facts on the string primitives *)

Module JsFacts.

Import Js.

Lemma app_cons (a : ascii) (s r : string) :
  String a s +:+ r = String a (s +:+ r).
Proof. reflexivity. Qed.

Lemma app_nil_l (r : string) : "" +:+ r = r.
Proof. reflexivity. Qed.

Lemma prefix_nil_r (t : string) :
  String.prefix t "" = true -> t = "".
Proof. destruct t; simpl; [reflexivity | discriminate]. Qed.

Lemma prefix_cons (a b : ascii) (t s : string) :
  String.prefix (String a t) (String b s) = true <->
  a = b /\ String.prefix t s = true.
Proof.
  simpl. destruct (ascii_dec a b) as [->|Hne]; split.
  - intros H. split; [reflexivity | exact H].
  - intros [_ H]. exact H.
  - discriminate.
  - intros [Heq _]. contradiction.
Qed.

Lemma prefix_app_intro (t r : string) : String.prefix t (t +:+ r) = true.
Proof.
  induction t as [|a t IH]; simpl.
  - destruct r; reflexivity.
  - destruct (ascii_dec a a); [exact IH | contradiction].
Qed.

Lemma prefix_refl (t : string) : String.prefix t t = true.
Proof.
  induction t as [|a t IH]; simpl; [reflexivity|].
  destruct (ascii_dec a a); [exact IH | contradiction].
Qed.

Lemma prefix_app_l (t s r : string) :
  String.prefix t s = true -> String.prefix t (s +:+ r) = true.
Proof.
  revert s. induction t as [|a t IH]; intros s H.
  - destruct (s +:+ r); reflexivity.
  - destruct s as [|b s]; [discriminate|].
    apply prefix_cons in H as [-> H]. rewrite app_cons.
    apply prefix_cons. split; [reflexivity | apply IH, H].
Qed.

Lemma prefix_length (t s : string) :
  String.prefix t s = true -> String.length t <= String.length s.
Proof.
  revert s. induction t as [|a t IH]; intros s H; simpl; [lia|].
  destruct s as [|b s]; [discriminate|].
  apply prefix_cons in H as [_ H]. apply IH in H. simpl. lia.
Qed.

Lemma length_app (s r : string) :
  String.length (s +:+ r) = String.length s + String.length r.
Proof. induction s as [|a s IH]; simpl; [reflexivity | rewrite IH; reflexivity]. Qed.

Lemma includes_prefix (s t : string) :
  String.prefix t s = true -> includes s t = true.
Proof. intros H. destruct s; cbn [includes]; rewrite H; reflexivity. Qed.

Lemma includes_cons (a : ascii) (s t : string) :
  includes s t = true -> includes (String a s) t = true.
Proof. intros H. cbn [includes]. rewrite H. apply orb_true_r. Qed.

Lemma includes_app_r (a s t : string) :
  includes s t = true -> includes (a +:+ s) t = true.
Proof.
  intros H. induction a as [|c a IH]; [exact H|].
  apply includes_cons, IH.
Qed.

Lemma includes_app_l (s b t : string) :
  includes s t = true -> includes (s +:+ b) t = true.
Proof.
  induction s as [|c s IH]; intros H.
  - simpl in H. rewrite orb_false_r in H. apply prefix_nil_r in H as ->.
    destruct b; reflexivity.
  - cbn [includes] in H. apply orb_true_iff in H as [H|H].
    + apply includes_prefix, prefix_app_l, H.
    + rewrite app_cons. apply includes_cons, IH, H.
Qed.

Lemma includes_refl (t : string) : includes t t = true.
Proof. apply includes_prefix, prefix_refl. Qed.

Lemma includes_join (sep d : string) (a : list string) :
  In d a -> includes (join sep a) d = true.
Proof.
  induction a as [|x rest IH]; intros Hin; [destruct Hin|].
  destruct rest as [|y rest].
  - destruct Hin as [->|[]]. apply includes_refl.
  - change (join sep (x :: y :: rest)) with (x +:+ sep +:+ join sep (y :: rest)).
    destruct Hin as [->|Hin].
    + apply includes_app_l, includes_refl.
    + apply includes_app_r, includes_app_r, IH, Hin.
Qed.

Lemma occurrences_short (t s : string) :
  String.length s < String.length t -> occurrences t s = 0.
Proof.
  induction s as [|a s IH]; intros Hlen.
  - destruct t; [simpl in Hlen; lia | reflexivity].
  - cbn [occurrences].
    destruct (String.prefix t (String a s)) eqn:Hp.
    + apply prefix_length in Hp. lia.
    + rewrite IH; [reflexivity | simpl in Hlen; lia].
Qed.

Lemma occurrences_includes (t s : string) :
  includes s t = false <-> occurrences t s = 0.
Proof.
  induction s as [|a s IH]; cbn [includes occurrences].
  - destruct (String.prefix t ""); simpl; split; (discriminate || reflexivity).
  - destruct (String.prefix t (String a s)); simpl.
    + split; discriminate.
    + exact IH.
Qed.

(** A line that ends a text cannot start inside the text before it unless
    it lies in that text entirely: its line feed would fall on a character
    of [d], which has none. *)
Lemma prefix_line_app (b c d : string) :
  includes d LF = false ->
  String.prefix (b +:+ LF) (c +:+ d +:+ LF) = true ->
  String.prefix (b +:+ LF) c = true \/ b +:+ LF = c +:+ d +:+ LF.
Proof.
  intros Hd. revert c d Hd. unfold LF.
  induction b as [|x b IH]; intros c d Hd H.
  - rewrite app_nil_l in *. destruct c as [|a c].
    + rewrite app_nil_l in *. destruct d as [|y d]; [right; reflexivity|].
      rewrite app_cons in H. apply prefix_cons in H as [<- _].
      cbn [includes] in Hd. rewrite (proj2 (prefix_cons _ _ "" d)) in Hd;
        [discriminate | split; [reflexivity | destruct d; reflexivity]].
    + left. rewrite app_cons in H.
      apply prefix_cons in H as [<- _].
      apply prefix_cons. split; [reflexivity | destruct c; reflexivity].
  - rewrite app_cons in *. destruct c as [|a c].
    + rewrite app_nil_l in *. destruct d as [|y d].
      * rewrite app_nil_l in *. apply prefix_cons in H as [_ H].
        apply prefix_nil_r in H. destruct b; discriminate.
      * rewrite app_cons in *. apply prefix_cons in H as [-> H].
        assert (Hd' : includes d (String (ascii_of_nat 10) "") = false).
        { cbn [includes] in Hd. apply orb_false_iff in Hd as [_ Hd]. exact Hd. }
        destruct (IH "" d Hd' H) as [Hp|Heq].
        -- apply prefix_nil_r in Hp. destruct b; discriminate.
        -- right. rewrite app_nil_l in Heq. f_equal. exact Heq.
    + rewrite app_cons in H. apply prefix_cons in H as [-> H].
      destruct (IH c d Hd H) as [Hp|Heq].
      * left. apply prefix_cons. split; [reflexivity | exact Hp].
      * right. rewrite app_cons. f_equal. exact Heq.
Qed.

(** Appending a line to a text that does not contain it creates exactly one
    occurrence of it. *)
Lemma occurrences_append_line (body content : string) :
  includes body LF = false ->
  includes content (body +:+ LF) = false ->
  occurrences (body +:+ LF) (content +:+ body +:+ LF) = 1.
Proof.
  intros Hbody. induction content as [|a content IH]; intros Hc.
  - rewrite app_nil_l.
    destruct (body +:+ LF) as [|x t] eqn:Ht; [destruct body; discriminate|].
    cbn [occurrences]. rewrite prefix_refl.
    rewrite occurrences_short; [reflexivity | simpl; lia].
  - cbn [includes] in Hc. apply orb_false_iff in Hc as [Hp Hc].
    rewrite app_cons. cbn [occurrences].
    rewrite (IH Hc).
    destruct (String.prefix (body +:+ LF) (String a (content +:+ body +:+ LF)))
      eqn:Hpre; [|reflexivity].
    rewrite <- app_cons in Hpre.
    destruct (prefix_line_app body (String a content) body Hbody Hpre)
      as [Hin|Heq].
    + congruence.
    + apply (f_equal String.length) in Heq.
      rewrite app_cons in Heq. simpl in Heq.
      rewrite !length_app in Heq. simpl in Heq. lia.
Qed.

End JsFacts.

(** ** The catalog and the format filter *)

Module CatalogFacts.

Import Catalog.

Lemma format_eqb_eq (a b : Format) : format_eqb a b = true <-> a = b.
Proof. destruct a, b; simpl; split; (reflexivity || discriminate). Qed.

Lemma wanted_spec (fmt : Format) (file : ComponentFile) :
  wanted fmt file = true <-> format file = None \/ format file = Some fmt.
Proof.
  unfold wanted. destruct (format file) as [f|].
  - rewrite format_eqb_eq. split.
    + intros ->. right. reflexivity.
    + intros [H|H]; [discriminate | congruence].
  - split; [left; reflexivity | reflexivity].
Qed.

Lemma wanted_other (fmt : Format) (file : ComponentFile) :
  wanted fmt file = false <-> format file = Some (otherFormat fmt).
Proof.
  unfold wanted.
  destruct (format file) as [[]|], fmt; simpl; split;
    (reflexivity || discriminate).
Qed.

(** The files that are not selected are those of the other format. *)
Lemma excludedFiles_unwanted (manifest : list ComponentFile) (fmt : Format) :
  excludedFiles manifest fmt =
  List.filter (fun file => negb (wanted fmt file)) manifest.
Proof.
  unfold excludedFiles. induction manifest as [|file rest IH]; [reflexivity|].
  cbn [List.filter]. rewrite IH. unfold wanted.
  destruct (format file) as [[]|], fmt; reflexivity.
Qed.

Lemma filter_partition {A : Type} (p : A -> bool) (l : list A) :
  Permutation l (List.filter p l ++ List.filter (fun x => negb (p x)) l).
Proof.
  induction l as [|x l IH]; [constructor|].
  cbn [List.filter]. destruct (p x); cbn [negb app].
  - constructor. exact IH.
  - etransitivity; [constructor; exact IH|].
    apply Permutation_middle.
Qed.

(** C2: the files selected for a format are exactly the files of the
    manifest that carry no format tag or the requested one; the files of
    the other format are left out; and the manifest is the selected files
    together with the excluded ones, so each entry of the manifest that
    qualifies is selected exactly once. *)
Theorem filesToDownload_exhaustive_exclusive
    (manifest : list ComponentFile) (fmt : Format) :
  (forall file,
     List.In file (filesToDownload manifest fmt) <->
     List.In file manifest /\
     (format file = None \/ format file = Some fmt)) /\
  (forall file,
     List.In file (excludedFiles manifest fmt) <->
     List.In file manifest /\ format file = Some (otherFormat fmt)) /\
  (forall file,
     ~ (List.In file (filesToDownload manifest fmt) /\
        format file = Some (otherFormat fmt))) /\
  Permutation manifest
    (filesToDownload manifest fmt ++ excludedFiles manifest fmt) /\
  sublist (filesToDownload manifest fmt) manifest.
Proof.
  split; [|split; [|split; [|split]]].
  - intros file. unfold filesToDownload. rewrite filter_In, wanted_spec.
    reflexivity.
  - intros file. rewrite excludedFiles_unwanted, filter_In, negb_true_iff.
    rewrite wanted_other. reflexivity.
  - intros file [H1 H2]. apply filter_In in H1 as [_ H1].
    apply wanted_other in H2. congruence.
  - rewrite excludedFiles_unwanted. apply filter_partition.
  - unfold filesToDownload. induction manifest as [|file rest IH].
    + constructor.
    + cbn [List.filter]. destruct (wanted fmt file); constructor; exact IH.
Qed.

(** The entries of the component catalog. *)
Lemma components_lookup (name : string) (component : ComponentConfig) :
  components !! name = Some component ->
  name = "button" \/ name = "toaster".
Proof.
  unfold components. intros H.
  apply lookup_insert_Some in H as [[<- _]|[_ H]]; [left; reflexivity|].
  apply lookup_insert_Some in H as [[<- _]|[_ H]]; [right; reflexivity|].
  rewrite lookup_empty in H. discriminate.
Qed.

(** The entries of the template catalog. *)
Lemma templates_lookup (name : string) (template : TemplateConfig) :
  templates !! name = Some template ->
  (name = "clientSideErrors" \/ name = "serverSideErrors") /\
  exists base,
    template_files template =
      [ mkFile (base +:+ ".tsx")
          (rawHost +:+ "templates/errors/" +:+ base +:+ "/" +:+ base +:+ ".tsx")
          (Some tsx);
        mkFile (base +:+ ".jsx")
          (rawHost +:+ "templates/errors/" +:+ base +:+ "/" +:+ base +:+ ".jsx")
          (Some jsx) ] /\
    Js.capitalize name = base.
Proof.
  unfold templates. intros H.
  apply lookup_insert_Some in H as [[<- <-]|[_ H]].
  { split; [left; reflexivity|]. exists "ClientSideErrors". split; reflexivity. }
  apply lookup_insert_Some in H as [[<- <-]|[_ H]].
  { split; [right; reflexivity|]. exists "ServerSideErrors". split; reflexivity. }
  rewrite lookup_empty in H. discriminate.
Qed.

End CatalogFacts.

(** ** The installer: package-manager detection and dependency install *)

Module CliFacts.

Import Js Json Catalog Io Cli JsFacts CatalogFacts.

(** Unfolding of the sequencing operators and of the primitive calls. *)
Ltac io_unfold :=
  unfold bind, ret, throw, tryCatch, log, emit, setFs, getWorld, traced.

Ltac io_prims :=
  unfold existsSync, readFile, writeFile, appendFile, ensureDir, readJson,
    axios_get, execSync, promptConfirm, promptText.

(** Solves [e1 :: ... :: en :: t = ?new ++ t], naming the new events. *)
Ltac trace_split :=
  lazymatch goal with
  | |- ?t = _ ++ ?t => exact (eq_refl ([] ++ t))
  | |- ?e :: ?l = _ ++ ?t =>
      refine (f_equal (cons e) (_ : l = _ ++ t) : e :: l = (e :: _) ++ t);
      trace_split
  end.

Lemma shellCommands_cons (e : event) (l : list event) :
  shellCommands (e :: l) =
  match e with
  | EvExec cmd => cmd :: shellCommands l
  | _ => shellCommands l
  end.
Proof. destruct e; reflexivity. Qed.

Lemma detect_setupTailwind_run (E : Env) (w : World) :
  exists new,
    detectPackageManager_setupTailwind E w =
      (Ok (lockfileRule (existsInProject E w "yarn.lock")
             (existsInProject E w "pnpm-lock.yaml")),
       {| fs := fs w; trace := new ++ trace w |}) /\
    shellCommands new = [].
Proof.
  unfold detectPackageManager_setupTailwind, existsInProject, lockfileRule.
  io_prims. io_unfold. cbn [fs trace].
  destruct (bool_decide (is_Some (fs w !! pathJoin E (cwd E) "yarn.lock"))).
  - exists [EvExists (pathJoin E (cwd E) "yarn.lock")]. split; reflexivity.
  - cbn [fs trace].
    destruct (bool_decide (is_Some (fs w !! pathJoin E (cwd E) "pnpm-lock.yaml")));
      exists [EvExists (pathJoin E (cwd E) "pnpm-lock.yaml");
              EvExists (pathJoin E (cwd E) "yarn.lock")];
      split; reflexivity.
Qed.

(** C6: the detection written in [setupTailwind] and the one written in
    [installDependencies] give the same answer, and leave the same world,
    on every state of the project; that answer is the rule of the
    specification: yarn when yarn.lock exists, else pnpm when pnpm-lock.yaml
    exists, else npm.  Detecting changes no file. *)
Theorem package_manager_detection_agrees (E : Env) (w : World) :
  detectPackageManager_setupTailwind E w =
    detectPackageManager_installDependencies E w /\
  fst (detectPackageManager_installDependencies E w) =
    Ok (lockfileRule (existsInProject E w "yarn.lock")
          (existsInProject E w "pnpm-lock.yaml")) /\
  fst (detectPackageManager_setupTailwind E w) =
    Ok (lockfileRule (existsInProject E w "yarn.lock")
          (existsInProject E w "pnpm-lock.yaml")) /\
  fs (snd (detectPackageManager_installDependencies E w)) = fs w /\
  fs (snd (detectPackageManager_setupTailwind E w)) = fs w.
Proof.
  assert (Hsame : detectPackageManager_setupTailwind E w =
                  detectPackageManager_installDependencies E w) by reflexivity.
  destruct (detect_setupTailwind_run E w) as (new & Hrun & _).
  rewrite <- Hsame, Hrun. repeat split; reflexivity.
Qed.

(** The text of the install command: the verb of the manager, the dev flag
    of the manager when [dev] is set, and the packages separated by
    spaces. *)
Lemma installCommand_text (pm : PackageManager) (dev : bool)
    (deps : list string) :
  installCommand pm dev deps =
  installVerb pm +:+ " " +:+ (if dev then devFlag pm else "") +:+ " " +:+
  join " " deps.
Proof. destruct pm, dev; reflexivity. Qed.

Lemma installCommand_includes (pm : PackageManager) (dev : bool)
    (deps : list string) (p : string) :
  List.In p deps -> includes (installCommand pm dev deps) p = true.
Proof.
  intros Hin. rewrite installCommand_text.
  do 4 apply includes_app_r. apply includes_join, Hin.
Qed.

Lemma installCommand_dev_flag (pm : PackageManager) (deps : list string) :
  includes (installCommand pm true deps) (devFlag pm) = true.
Proof.
  rewrite installCommand_text.
  do 2 apply includes_app_r. apply includes_app_l, includes_refl.
Qed.

(** C8: [installDependencies] on the empty list does nothing at all: the
    world, trace included, is unchanged.  On a non-empty list it runs
    exactly one shell command, the install command of the detected package
    manager, whose text holds every requested package and, for a dev
    install, the dev flag of that manager; and it never throws. *)
Theorem installDependencies_one_command (E : Env) (dev : bool) (w : World)
    (d : string) (rest : list string) :
  installDependencies E [] dev w = (Ok tt, w) /\
  let deps := d :: rest in
  let pm := lockfileRule (existsInProject E w "yarn.lock")
              (existsInProject E w "pnpm-lock.yaml") in
  exists new w',
    installDependencies E deps dev w = (Ok tt, w') /\
    trace w' = new ++ trace w /\
    shellCommands new = [installCommand pm dev deps] /\
    installCommand pm dev deps =
      installVerb pm +:+ " " +:+ (if dev then devFlag pm else "") +:+ " " +:+
      join " " deps /\
    (forall p, List.In p deps -> includes (installCommand pm dev deps) p = true) /\
    (if dev then includes (installCommand pm dev deps) (devFlag pm) = true
     else True).
Proof.
  split; [reflexivity|]. intros deps pm.
  destruct (detect_setupTailwind_run E w) as (new0 & Hrun & Hnew0).
  change (detectPackageManager_setupTailwind E w)
    with (detectPackageManager_installDependencies E w) in Hrun.
  fold pm in Hrun.
  assert (Hbody : exists new w',
            installDependencies E deps dev w = (Ok tt, w') /\
            trace w' = new ++ trace w /\
            shellCommands new = [installCommand pm dev deps]).
  { unfold installDependencies, deps. fold deps.
    unfold bind at 1. rewrite Hrun.
    unfold execSync. io_unfold. cbn [fs trace].
    destruct (runShell E _ (installCommand pm dev deps)).
    - eexists (_ :: _ :: _ :: new0), _. split; [reflexivity|].
      cbn [trace]. split; [reflexivity|].
      rewrite !shellCommands_cons, Hnew0. reflexivity.
    - eexists (_ :: _ :: _ :: _ :: new0), _. split; [reflexivity|].
      cbn [trace]. split; [reflexivity|].
      rewrite !shellCommands_cons, Hnew0. reflexivity. }
  destruct Hbody as (new & w' & H1 & H2 & H3).
  exists new, w'. repeat split; try assumption.
  - apply installCommand_text.
  - intros p. apply installCommand_includes.
  - destruct dev; [apply installCommand_dev_flag | exact I].
Qed.

(** *** The index updater *)

Lemma exists_file (w : World) (path : string) (n : node) :
  fs w !! path = Some n -> bool_decide (is_Some (fs w !! path)) = true.
Proof. intros ->. apply bool_decide_eq_true. eauto. Qed.

Lemma exists_none (w : World) (path : string) :
  fs w !! path = None -> bool_decide (is_Some (fs w !! path)) = false.
Proof. intros ->. apply bool_decide_eq_false. intros [? ?]. discriminate. Qed.

(** The index file holds the line already: nothing is written. *)
Lemma updateIndex_present (E : Env) (dir name : string) (fmt : Format)
    (statement content : string) (w : World) :
  fs w !! indexPath E dir fmt = Some (File content) ->
  includes content statement = true ->
  updateIndex E dir name fmt statement w =
    (Ok tt,
     {| fs := fs w;
        trace := secondUpdateEvents (indexPath E dir fmt) name fmt ++ trace w |}).
Proof.
  intros Hfile Hinc. unfold updateIndex. fold (indexPath E dir fmt).
  io_prims. io_unfold. cbn [fs trace].
  rewrite (exists_file _ _ _ Hfile). cbn [negb fs trace].
  rewrite Hfile, Hinc. reflexivity.
Qed.

(** The index file lacks the line: it is appended. *)
Lemma updateIndex_append (E : Env) (dir name : string) (fmt : Format)
    (statement content : string) (w : World) :
  fs w !! indexPath E dir fmt = Some (File content) ->
  includes content statement = false ->
  exists new,
    updateIndex E dir name fmt statement w =
      (Ok tt,
       {| fs := <[ indexPath E dir fmt := File (content +:+ statement) ]> (fs w);
          trace := new ++ trace w |}).
Proof.
  intros Hfile Hinc. unfold updateIndex. fold (indexPath E dir fmt).
  io_prims. io_unfold. cbn [fs trace].
  rewrite (exists_file _ _ _ Hfile). cbn [negb fs trace].
  rewrite Hfile, Hinc. cbn [negb fs trace]. rewrite Hfile.
  eexists (_ :: _ :: _ :: _ :: []). reflexivity.
Qed.

(** There is no index file: it is created empty, then the line is
    appended. *)
Lemma updateIndex_create (E : Env) (dir name : string) (fmt : Format)
    (statement : string) (w : World) :
  fs w !! indexPath E dir fmt = None ->
  includes "" statement = false ->
  exists new,
    updateIndex E dir name fmt statement w =
      (Ok tt,
       {| fs := <[ indexPath E dir fmt := File statement ]> (fs w);
          trace := new ++ trace w |}).
Proof.
  intros Hfile Hinc. unfold updateIndex. fold (indexPath E dir fmt).
  io_prims. io_unfold. cbn [fs trace].
  rewrite (exists_none _ _ Hfile). cbn [negb fs trace].
  rewrite Hfile. cbn [fs trace]. rewrite lookup_insert_eq, Hinc.
  cbn [negb fs trace]. rewrite lookup_insert_eq, insert_insert_eq.
  eexists (_ :: _ :: _ :: _ :: _ :: _ :: []). reflexivity.
Qed.


Lemma includes_nil_line (body : string) : includes "" (body +:+ LF) = false.
Proof. destruct body; reflexivity. Qed.

(** Two updates in a row with a line [body] followed by a line feed. *)
Lemma updateIndex_twice (E : Env) (dir name : string) (fmt : Format)
    (body : string) (w : World) :
  includes body LF = false ->
  fs w !! indexPath E dir fmt <> Some Dir ->
  occurrences (body +:+ LF) (fileText w (indexPath E dir fmt)) <= 1 ->
  appendsOnce (updateIndex E dir name fmt (body +:+ LF))
    (indexPath E dir fmt) name fmt (body +:+ LF) w.
Proof.
  intros Hbody Hdir Hocc. unfold appendsOnce, fileText in *.
  destruct (fs w !! indexPath E dir fmt) as [[content|]|] eqn:Hfile.
  - destruct (includes content (body +:+ LF)) eqn:Hinc.
    + pose proof (updateIndex_present E dir name fmt _ _ w Hfile Hinc) as H1.
      eexists _, _, content. split; [exact H1|].
      split; [apply (updateIndex_present E dir name fmt _ content);
              [exact Hfile | exact Hinc]|].
      cbn [fs trace]. repeat split; try reflexivity; [exact Hfile|].
      assert (occurrences (body +:+ LF) content <> 0).
      { intros H0. apply occurrences_includes in H0. congruence. }
      lia.
    + destruct (updateIndex_append E dir name fmt _ _ w Hfile Hinc)
        as (new & H1).
      eexists _, _, (content +:+ body +:+ LF). split; [exact H1|].
      split; [apply (updateIndex_present E dir name fmt _ (content +:+ body +:+ LF));
              [apply lookup_insert_eq
              | apply includes_app_r, includes_refl]|].
      cbn [fs trace]. repeat split; try reflexivity.
      * apply lookup_insert_eq.
      * apply occurrences_append_line; assumption.
  - congruence.
  - destruct (updateIndex_create E dir name fmt _ w Hfile
                (includes_nil_line body)) as (new & H1).
    eexists _, _, (body +:+ LF). split; [exact H1|].
    split; [apply (updateIndex_present E dir name fmt _ (body +:+ LF));
            [apply lookup_insert_eq | apply includes_refl]|].
    cbn [fs trace]. repeat split; try reflexivity.
    + apply lookup_insert_eq.
    + apply (occurrences_append_line body "" Hbody), includes_nil_line.
Qed.

(** The export lines of the catalog end with their only line feed. *)
Lemma indexStatement_line (k : ItemKind) (name : string) (fmt : Format) :
  inCatalog k name = true ->
  exists symbol,
    indexStatement k name fmt = exportBody symbol name fmt +:+ LF /\
    includes (exportBody symbol name fmt) LF = false /\
    forall E dir,
      indexStep E k dir name fmt =
      updateIndex E dir name fmt (exportBody symbol name fmt +:+ LF).
Proof.
  intros Hin. destruct k; unfold inCatalog in Hin;
    apply bool_decide_eq_true in Hin as [c Hc].
  - exists (capitalize name).
    apply components_lookup in Hc as [->| ->]; destruct fmt;
      (split; [reflexivity | split; [reflexivity | reflexivity]]).
  - unfold indexStatement, indexStep. rewrite Hc.
    destruct (templates_lookup _ _ Hc) as (Hname & base & Hfiles & Hbase).
    exists base. rewrite Hfiles.
    destruct Hname as [->| ->]; vm_compute in Hbase; subst base; destruct fmt;
      (split; [reflexivity | split; [reflexivity | reflexivity]]).
Qed.

(** C1: for every target directory, item of a catalog and format, two runs
    of the index step with the same arguments leave exactly one occurrence
    of the generated export line in the index file; the second run reads
    the file, finds the line, writes nothing and reports the export as
    already there.  (The index path is not a directory, and the file does
    not already repeat the line.) *)
Theorem index_append_idempotent (E : Env) (k : ItemKind)
    (targetDir name : string) (fmt : Format) (w : World) :
  let fullTargetDir := pathJoin E (cwd E) targetDir in
  inCatalog k name = true ->
  fs w !! indexPath E fullTargetDir fmt <> Some Dir ->
  occurrences (indexStatement k name fmt)
    (fileText w (indexPath E fullTargetDir fmt)) <= 1 ->
  appendsOnce (indexStep E k fullTargetDir name fmt)
    (indexPath E fullTargetDir fmt) name fmt (indexStatement k name fmt) w.
Proof.
  intros dir Hin Hdir Hocc.
  destruct (indexStatement_line k name fmt Hin) as (symbol & Hst & Hbody & Hstep).
  rewrite Hst in *. rewrite Hstep.
  apply updateIndex_twice; assumption.
Qed.


(** *** The export name of a template *)

(** C9: for every template of the catalog and every format, the filtered
    file list has a first element, so reading its file name does not
    throw; the exported symbol of the generated line is the text of that
    file name before its first dot, and it stays that text whatever the
    key the template is installed under: it is not derived from the key. *)
Theorem template_export_name (E : Env) (dir name : string)
    (template : TemplateConfig) (fmt : Format) :
  templates !! name = Some template ->
  exists first rest,
    filesToDownload (template_files template) fmt = first :: rest /\
    templateClassName (filesToDownload (template_files template) fmt) =
      Ok (beforeFirstDot (filename first)) /\
    indexStatement Template name fmt =
      exportStatement (beforeFirstDot (filename first)) name fmt /\
    forall key,
      updateTemplateIndex E dir key
        (filesToDownload (template_files template) fmt) fmt =
      updateIndex E dir key fmt
        (exportStatement (beforeFirstDot (filename first)) key fmt).
Proof.
  intros Hc. unfold indexStatement. rewrite Hc.
  destruct (templates_lookup _ _ Hc) as (_ & base & Hfiles & _).
  rewrite Hfiles. destruct fmt; eexists _, _;
    (split; [reflexivity | split; [reflexivity | split; [reflexivity|]]]);
    intros key; reflexivity.
Qed.

(** The export name of the clientSideErrors template in the tsx format. *)
Lemma template_export_name_witness :
  templates !! "clientSideErrors" <> None /\
  exists first rest,
    filesToDownload
      (template_files (default (mkTemplateConfig [] [] [] None None)
                         (templates !! "clientSideErrors"))) tsx =
      first :: rest /\
    beforeFirstDot (filename first) = "ClientSideErrors".
Proof.
  split; [vm_compute; discriminate|].
  destruct (template_export_name demoEnv "/project/src/templates"
              "clientSideErrors"
              (default (mkTemplateConfig [] [] [] None None)
                 (templates !! "clientSideErrors")) tsx)
    as (first & rest & Hfiles & _); [vm_compute; reflexivity|].
  exists first, rest. split; [exact Hfiles|].
  vm_compute in Hfiles. injection Hfiles as <- _. reflexivity.
Defined.

(** Installing the button twice into src/components of an empty project. *)
Lemma index_append_idempotent_witness :
  inCatalog Component "button" = true /\
  appendsOnce
    (indexStep demoEnv Component "/project/src/components" "button" tsx)
    (indexPath demoEnv "/project/src/components" tsx) "button" tsx
    (indexStatement Component "button" tsx) emptyWorld.
Proof.
  split; [vm_compute; reflexivity|].
  apply (index_append_idempotent demoEnv Component "src/components" "button"
           tsx emptyWorld).
  - vm_compute. reflexivity.
  - vm_compute. discriminate.
  - vm_compute. lia.
Defined.


(** *** The entry-stylesheet locator *)

Lemma promptsAsked_cons (e : event) (l : list event) :
  promptsAsked (e :: l) =
  match e with
  | EvPrompt q => q :: promptsAsked l
  | _ => promptsAsked l
  end.
Proof. destruct e; reflexivity. Qed.

Lemma promptsAsked_app (l1 l2 : list event) :
  promptsAsked (l1 ++ l2) = promptsAsked l1 ++ promptsAsked l2.
Proof.
  induction l1 as [|e l1 IH]; [reflexivity|].
  cbn [app]. rewrite !promptsAsked_cons, IH. destruct e; reflexivity.
Qed.

(** The loop over the conventional paths: it stops at the first path that
    holds a regular file, and else falls through; it asks nothing. *)
Lemma updateExistingCss_run (E : Env) (paths : list string) (w : World) :
  exists new,
    promptsAsked new = [] /\
    updateExistingCss E paths w =
      match firstStylesheet E (fs w) paths with
      | Some (cssPath, content) =>
          (Ok true,
           {| fs := withDirectives E (fs w) cssPath content;
              trace := new ++ trace w |})
      | None => (Ok false, {| fs := fs w; trace := new ++ trace w |})
      end.
Proof.
  revert w. induction paths as [|cssPath rest IH]; intros w.
  - exists []. split; [reflexivity|]. destruct w; reflexivity.
  - cbn [updateExistingCss firstStylesheet].
    unfold bind at 1. unfold existsSync at 1. io_unfold. cbn [fs trace].
    destruct (fs w !! pathJoin E (cwd E) cssPath) as [[content|]|] eqn:Hfile.
    + rewrite bool_decide_eq_true_2 by eauto.
      unfold readFile, writeFile. io_unfold. cbn [fs trace]. rewrite Hfile.
      unfold withDirectives.
      destruct (includes content "@tailwind"); cbn [negb fs trace].
      * eexists (_ :: _ :: _ :: []). split; [|reflexivity]; reflexivity.
      * rewrite Hfile. eexists (_ :: _ :: _ :: _ :: []). split; [|reflexivity]; reflexivity.
    + rewrite bool_decide_eq_true_2 by eauto.
      unfold readFile. io_unfold. cbn [fs trace]. rewrite Hfile.
      match goal with
      | |- context [updateExistingCss E rest ?w1] =>
          destruct (IH w1) as (new & Hnew & ->)
      end.
      cbn [fs trace].
      eexists (new ++ _ :: _ :: _ :: []). split; cycle 1.
      * rewrite <- !app_assoc. reflexivity.
      * rewrite promptsAsked_app, Hnew. reflexivity.
    + rewrite bool_decide_eq_false_2 by (intros [? ?]; discriminate).
      match goal with
      | |- context [updateExistingCss E rest ?w1] =>
          destruct (IH w1) as (new & Hnew & ->)
      end.
      cbn [fs trace].
      eexists (new ++ _ :: []). split; cycle 1.
      * rewrite <- !app_assoc. reflexivity.
      * rewrite promptsAsked_app, Hnew. reflexivity.
Qed.

(** The interactive branch asks the operator first. *)
Lemma createNewCss_asks (E : Env) (w : World) :
  exists new,
    trace (snd (createNewCss E w)) = new ++ trace w /\
    promptsAsked new = [AskCssPath].
Proof.
  unfold createNewCss, promptText, ensureDir, writeFile. io_unfold.
  cbn [fs trace].
  destruct (answerText E w AskCssPath) as [cssPath|];
    [|exists [EvPrompt AskCssPath]; split; reflexivity].
  cbn [fs trace].
  destruct (fs w !! pathDirname E (pathJoin E (cwd E) cssPath))
    as [[?|]|] eqn:Hdir; cbn [fs trace snd].
  - eexists (_ :: _ :: _ :: []). split; reflexivity.
  - destruct (fs w !! pathJoin E (cwd E) cssPath) as [[?|]|];
      cbn [fs trace snd].
    + eexists (_ :: _ :: _ :: _ :: _ :: []). split; reflexivity.
    + eexists (_ :: _ :: _ :: _ :: []). split; reflexivity.
    + eexists (_ :: _ :: _ :: _ :: _ :: []). split; reflexivity.
  - destruct (<[pathDirname E (pathJoin E (cwd E) cssPath):=Dir]> (fs w)
                !! pathJoin E (cwd E) cssPath) as [[?|]|];
      cbn [fs trace snd].
    + eexists (_ :: _ :: _ :: _ :: _ :: []). split; reflexivity.
    + eexists (_ :: _ :: _ :: _ :: []). split; reflexivity.
    + eexists (_ :: _ :: _ :: _ :: _ :: []). split; reflexivity.
Qed.


(** The claim C7 as it is written fails: in a project whose
    src/styles/globals.css is a directory a conventional path exists, and
    the operator is asked all the same. *)
Lemma stylesheet_locator_asks_despite_existing_path :
  ~ (forall (E : Env) (w : World),
       (exists cssPath,
          List.In cssPath possibleCssPaths /\
          existsInProject E w cssPath = true) ->
       promptsAsked (trace (snd (createTailwindCSSFile E w))) =
       promptsAsked (trace w)).
Proof.
  intros Hclaim.
  specialize (Hclaim demoEnv globalsDirWorld).
  assert (Hexists : exists cssPath,
             List.In cssPath possibleCssPaths /\
             existsInProject demoEnv globalsDirWorld cssPath = true).
  { exists "src/styles/globals.css". split; [left; reflexivity|].
    vm_compute. reflexivity. }
  apply Hclaim in Hexists. vm_compute in Hexists. discriminate.
Qed.

(** *** The provisioner *)

Lemma firstStylesheet_In (E : Env) (files : gmap string node)
    (paths : list string) (cssPath content : string) :
  firstStylesheet E files paths = Some (cssPath, content) ->
  List.In cssPath paths /\
  files !! pathJoin E (cwd E) cssPath = Some (File content).
Proof.
  induction paths as [|c rest IH]; [discriminate|].
  cbn [firstStylesheet].
  destruct (files !! pathJoin E (cwd E) c) as [[text|]|] eqn:Hc; intros H.
  - injection H as <- <-. split; [left; reflexivity | exact Hc].
  - destruct (IH H) as [Hin Hfile]. split; [right; exact Hin | exact Hfile].
  - destruct (IH H) as [Hin Hfile]. split; [right; exact Hin | exact Hfile].
Qed.

(** The stylesheet step leaves every path it avoids as it was. *)
Lemma createTailwindCSSFile_frame (E : Env) (w : World) (path : string)
    (n : node) :
  stylesheetAvoids E path ->
  fs w !! path = Some n ->
  fs (snd (createTailwindCSSFile E w)) !! path = Some n.
Proof.
  intros [Hconv Hans] Hpath.
  unfold createTailwindCSSFile. unfold bind.
  destruct (updateExistingCss_run E possibleCssPaths w) as (new & _ & ->).
  destruct (firstStylesheet E (fs w) possibleCssPaths)
    as [[cssPath content]|] eqn:Hfirst.
  - unfold ret. cbn [snd fs]. unfold withDirectives.
    destruct (includes content "@tailwind"); [exact Hpath|].
    apply firstStylesheet_In in Hfirst as [Hin _].
    rewrite lookup_insert_ne by (apply Hconv, Hin). exact Hpath.
  - unfold createNewCss, promptText, ensureDir, writeFile. io_unfold.
    cbn [fs trace].
    destruct (answerText E _ AskCssPath) as [cssPath|] eqn:Hanswer;
      [|exact Hpath].
    apply Hans in Hanswer. cbn [fs trace].
    destruct (fs w !! pathDirname E (pathJoin E (cwd E) cssPath))
      as [[?|]|] eqn:Hdir; cbn [fs trace snd].
    + exact Hpath.
    + destruct (fs w !! pathJoin E (cwd E) cssPath) as [[?|]|];
        cbn [fs trace snd]; try exact Hpath;
        rewrite lookup_insert_ne by exact Hanswer; exact Hpath.
    + assert (Hne : pathDirname E (pathJoin E (cwd E) cssPath) <> path)
        by congruence.
      destruct (<[pathDirname E (pathJoin E (cwd E) cssPath):=Dir]> (fs w)
                  !! pathJoin E (cwd E) cssPath) as [[?|]|];
        cbn [fs trace snd];
        rewrite ?(lookup_insert_ne _ _ _ _ Hanswer);
        rewrite lookup_insert_ne by exact Hne; exact Hpath.
Qed.


(** C3, as the code has it: a provisioning run that succeeds has written
    tailwind.config.js and postcss.config.js with their fixed texts,
    whatever the project held at those paths before: an existing file is
    replaced, nothing is kept of it or merged.  (The two paths differ and
    the stylesheet step writes elsewhere.) *)
Theorem setupTailwind_writes_fixed_configs (E : Env) (w : World) :
  let tailwindConfigPath := pathJoin E (cwd E) "tailwind.config.js" in
  let postcssConfigPath := pathJoin E (cwd E) "postcss.config.js" in
  fst (setupTailwind E w) = Ok true ->
  tailwindConfigPath <> postcssConfigPath ->
  stylesheetAvoids E tailwindConfigPath ->
  stylesheetAvoids E postcssConfigPath ->
  fs (snd (setupTailwind E w)) !! tailwindConfigPath =
    Some (File tailwindConfigContent) /\
  fs (snd (setupTailwind E w)) !! postcssConfigPath =
    Some (File postcssConfigContent).
Proof.
  intros tw pc.
  destruct (setupTailwind E w) as [r wf] eqn:Hrun. cbn [fst snd].
  intros -> Hne Atw Apc. revert Hrun.
  unfold setupTailwind. unfold bind at 1.
  destruct (detect_setupTailwind_run E w) as (new0 & -> & _).
  set (pm := lockfileRule _ _). unfold execSync, writeFile. io_unfold.
  cbn [fs trace]. fold tw pc.
  destruct (runShell E _ (tailwindInstallCmd pm)) as [files|];
    [|discriminate].
  cbn [fs trace].
  destruct (files !! tw) as [[?|]|] eqn:Htw; try discriminate;
    cbn [fs trace];
    (destruct (<[tw:=File tailwindConfigContent]> files !! pc)
       as [[?|]|] eqn:Hpc; try discriminate; cbn [fs trace]);
    match goal with
    | |- context [createTailwindCSSFile E ?w2] =>
        pose proof (createTailwindCSSFile_frame E w2 tw
                      (File tailwindConfigContent) Atw) as Hftw;
        pose proof (createTailwindCSSFile_frame E w2 pc
                      (File postcssConfigContent) Apc) as Hfpc;
        destruct (createTailwindCSSFile E w2) as [[[]|e] w3]
    end;
    cbn [fst snd fs trace] in *; try discriminate;
    intros Heq; injection Heq as <-;
    (split; [apply Hftw | apply Hfpc]);
    rewrite ?lookup_insert_eq; try reflexivity;
    rewrite lookup_insert_ne by (intros Heq; apply Hne; congruence);
    apply lookup_insert_eq.
Qed.

(** The claim C3 as it is written fails: a tailwind.config.js that exists
    before the provisioning run does not keep its content. *)
Lemma setupTailwind_overwrites_existing_config :
  ~ (forall (E : Env) (w : World) (content : string),
       fs w !! pathJoin E (cwd E) "tailwind.config.js" = Some (File content) ->
       fs (snd (setupTailwind E w)) !! pathJoin E (cwd E) "tailwind.config.js"
       = Some (File content)).
Proof.
  intros Hclaim.
  specialize (Hclaim demoEnv staleConfigWorld "module.exports = {}").
  assert (Hbefore :
            fs staleConfigWorld !! pathJoin demoEnv (cwd demoEnv)
              "tailwind.config.js" = Some (File "module.exports = {}"))
    by (vm_compute; reflexivity).
  apply Hclaim in Hbefore. vm_compute in Hbefore. discriminate.
Qed.

(** Provisioning a project that has a tailwind.config.js of its own. *)
Lemma setupTailwind_writes_fixed_configs_witness :
  fst (setupTailwind demoEnv staleConfigWorld) = Ok true /\
  fs staleConfigWorld !! "/project/tailwind.config.js" =
    Some (File "module.exports = {}") /\
  fs (snd (setupTailwind demoEnv staleConfigWorld))
    !! "/project/tailwind.config.js" = Some (File tailwindConfigContent) /\
  fs (snd (setupTailwind demoEnv staleConfigWorld))
    !! "/project/postcss.config.js" = Some (File postcssConfigContent).
Proof.
  split; [vm_compute; reflexivity|].
  split; [vm_compute; reflexivity|].
  apply (setupTailwind_writes_fixed_configs demoEnv staleConfigWorld).
  - vm_compute. reflexivity.
  - vm_compute. discriminate.
  - split.
    + intros cssPath Hin. cbn in Hin.
      repeat (destruct Hin as [<-|Hin]; [vm_compute; discriminate|]).
      destruct Hin.
    + intros w' cssPath Hanswer. cbn in Hanswer.
      injection Hanswer as <-. vm_compute. discriminate.
  - split.
    + intros cssPath Hin. cbn in Hin.
      repeat (destruct Hin as [<-|Hin]; [vm_compute; discriminate|]).
      destruct Hin.
    + intros w' cssPath Hanswer. cbn in Hanswer.
      injection Hanswer as <-. vm_compute. discriminate.
Defined.


(** *** The prerequisite check *)

(** The check is satisfied only by a project whose package.json parses,
    lists tailwindcss with a version text the prefix test [isV3] accepts,
    and has both configuration files. *)
Lemma checkTailwindSetup_true_inv (E : Env) (w : World) :
  fst (checkTailwindSetup E w) = Ok true ->
  exists content packageJson deps devDeps version,
    fs w !! pathJoin E (cwd E) "package.json" = Some (File content) /\
    parseJson E content = Some packageJson /\
    getField packageJson "dependencies" = Some deps /\
    getField packageJson "devDependencies" = Some devDeps /\
    spreadProp deps devDeps "tailwindcss" = Some (JStr version) /\
    isV3 version = true /\
    existsInProject E w "tailwind.config.js" = true /\
    existsInProject E w "postcss.config.js" = true.
Proof.
  unfold checkTailwindSetup, readTailwindDependency, readJson, readFile,
    existsSync, existsInProject.
  io_unfold. cbn [fs trace].
  destruct (fs w !! pathJoin E (cwd E) "package.json") as [[content|]|]
    eqn:Hfile; cbn [fst]; try discriminate.
  destruct (parseJson E content) as [packageJson|] eqn:Hparse; cbn [fst];
    try discriminate.
  destruct (getField packageJson "dependencies") as [deps|] eqn:Hdeps;
    cbn [fst]; try discriminate.
  destruct (getField packageJson "devDependencies") as [devDeps|] eqn:Hdev;
    cbn [fst]; try discriminate.
  destruct (truthy (spreadProp deps devDeps "tailwindcss")) eqn:Htruthy;
    cbn [fst fs trace negb].
  - destruct (spreadProp deps devDeps "tailwindcss") as [[| | |version| |]|]
      eqn:Hspread; cbn [fst]; try discriminate.
    destruct (isV3 version) eqn:Hv3; cbn [fst fs trace negb];
      try discriminate.
    destruct (bool_decide
                (is_Some (fs w !! pathJoin E (cwd E) "tailwind.config.js")))
      eqn:Htw; cbn [fst fs trace negb]; try discriminate.
    destruct (bool_decide
                (is_Some (fs w !! pathJoin E (cwd E) "postcss.config.js")))
      eqn:Hpc; cbn [fst fs trace negb]; try discriminate.
    intros _. exists content, packageJson, deps, devDeps, version.
    repeat split; assumption || reflexivity.
  - destruct (bool_decide
                (is_Some (fs w !! pathJoin E (cwd E) "tailwind.config.js")));
      cbn [fst fs trace negb]; discriminate.
Qed.

(** The check never throws. *)
Lemma checkTailwindSetup_returns (E : Env) (w : World) :
  exists b, fst (checkTailwindSetup E w) = Ok b.
Proof.
  unfold checkTailwindSetup, readTailwindDependency, readJson, readFile,
    existsSync.
  io_unfold. cbn [fs trace].
  destruct (fs w !! pathJoin E (cwd E) "package.json") as [[content|]|];
    cbn [fst]; eauto.
  destruct (parseJson E content) as [packageJson|]; cbn [fst]; eauto.
  destruct (getField packageJson "dependencies") as [deps|]; cbn [fst]; eauto.
  destruct (getField packageJson "devDependencies") as [devDeps|]; cbn [fst];
    eauto.
  destruct (truthy (spreadProp deps devDeps "tailwindcss"));
    cbn [fst fs trace negb].
  - destruct (spreadProp deps devDeps "tailwindcss") as [[| | |version| |]|];
      cbn [fst]; eauto.
    destruct (isV3 version); cbn [fst fs trace negb]; eauto.
    repeat (destruct (bool_decide _); cbn [fst fs trace negb]); eauto.
  - repeat (destruct (bool_decide _); cbn [fst fs trace negb]); eauto.
Qed.

(** C4, where the code departs from it: with tailwindcss at version
    30.0.0, whose major version is not 3, and both configuration files in
    place, the check reports the prerequisite as satisfied, because the
    version text starts with "3". *)
Theorem checkTailwindSetup_accepts_major_30 :
  hasMajorVersion3 "30.0.0" = false /\
  isV3 "30.0.0" = true /\
  fst (checkTailwindSetup tailwind30Env tailwind30World) = Ok true.
Proof. repeat split; vm_compute; reflexivity. Qed.


(** *** Catalog lookup in [fetchComponent] and [fetchTemplate] *)


(** A name for which the property read gives [undefined] is reported as
    not found, and nothing else happens. *)
Lemma fetch_undefined_name (E : Env) (name targetDir : string) (fmt : Format)
    (w : World) :
  (jsLookup components name = Undefined ->
   fetchComponent E name targetDir fmt w =
     (Ok tt, traced (EvLog (MsgNotFound Component name)) w)) /\
  (jsLookup templates name = Undefined ->
   fetchTemplate E name targetDir fmt w =
     (Ok tt, traced (EvLog (MsgNotFound Template name)) w)).
Proof.
  split; intros H; [unfold fetchComponent | unfold fetchTemplate];
    rewrite H; reflexivity.
Qed.

(** The names that are not in a catalog and still are not [undefined]
    there are the twelve property names of [Object.prototype]. *)
Lemma jsLookup_unknown {A : Type} (m : gmap string A) (name : string) :
  m !! name = None ->
  jsLookup m name = Undefined \/
  (jsLookup m name = Inherited /\ List.In name objectPrototypeKeys).
Proof.
  intros H. unfold jsLookup. rewrite H.
  destruct (bool_decide (name ∈ objectPrototypeKeys)) eqn:Hin.
  - right. split; [reflexivity|].
    apply bool_decide_eq_true in Hin. apply list_elem_of_In, Hin.
  - left. reflexivity.
Qed.



End CliFacts.

(** ** The toast queue *)

Module ToasterFacts.

Import Js Toaster.

Lemma filter_sublist {A : Type} (p : A -> bool) (l : list A) :
  sublist (List.filter p l) l.
Proof.
  induction l as [|x l IH]; [constructor|].
  cbn [List.filter]. destruct (p x); constructor; exact IH.
Qed.

Lemma slice0_nonneg {A : Type} (a : list A) (e : Z) :
  (0 <= e)%Z -> slice0 a e = firstn (Z.to_nat e) a.
Proof.
  intros He. unfold slice0.
  destruct (e <? 0)%Z eqn:Hlt; [apply Z.ltb_lt in Hlt; lia|].
  destruct (Z.le_ge_cases e (Z.of_nat (length a))) as [Hle|Hge].
  - rewrite Z.min_l by exact Hle. reflexivity.
  - rewrite Z.min_r by exact Hge. rewrite Nat2Z.id.
    rewrite firstn_all. symmetry. apply firstn_all2. lia.
Qed.

(** The queue reached from [state] only holds toasts of [state] and toasts
    inserted since, in that order. *)
Lemma dispatch_sublist {T : Type} (toast_id : T -> string)
    (actions : list (ToastAction T)) (state : list T) :
  sublist (fold_left (toastReducer toast_id) actions state)
    (state ++ inserted actions).
Proof.
  revert state. induction actions as [|action rest IH]; intros state.
  - cbn. rewrite app_nil_r. reflexivity.
  - cbn [fold_left]. destruct action as [payload|id]; cbn [toastReducer inserted].
    + specialize (IH (state ++ [payload])).
      rewrite <- app_assoc in IH. exact IH.
    + etransitivity; [apply IH|].
      apply sublist_app; [apply filter_sublist | reflexivity].
Qed.

Lemma boundedQueue_holds {T : Type} (toast_id : T -> string)
    (actions : list (ToastAction T)) (maxToasts : Z) :
  (0 <= maxToasts)%Z -> boundedQueue toast_id actions maxToasts.
Proof.
  intros Hmax. unfold boundedQueue, visibleToasts, defaultMaxToasts.
  cbv zeta. split; [apply slice0_nonneg, Hmax|].
  split. { rewrite slice0_nonneg by exact Hmax. rewrite length_firstn. lia. }
  split. { apply slice0_nonneg. lia. }
  split. { apply (dispatch_sublist toast_id actions []). }
  intros id. split; [apply filter_sublist|].
  intros toast. cbn [toastReducer]. rewrite filter_In, negb_true_iff.
  rewrite String.eqb_neq. reflexivity.
Qed.

(** C10: for every sequence of [addToast] and [removeToast] calls, on the
    provider of Toaster.tsx and on that of Toaster.jsx, and every
    non-negative [maxToasts], the rendered list is the first [maxToasts]
    toasts of the queue (five by default), the queue being in insertion
    order; at most [maxToasts] toasts are rendered; and removing a toast by
    id keeps the other toasts in their relative order. *)
Theorem toast_provider_bounds_visible (tsxCalls : list TsxCall)
    (jsxCalls : list JsxCall) (defaultDuration maxToasts : Z) :
  (0 <= maxToasts)%Z ->
  boundedQueue id (map tsxAction tsxCalls) maxToasts /\
  boundedQueue jsx_id (map (jsxAction defaultDuration) jsxCalls) maxToasts.
Proof. intros Hmax. split; apply boundedQueue_holds, Hmax. Qed.

(** Four toasts added, the first removed, two rendered at most. *)
Lemma toast_provider_bounds_visible_witness :
  (0 <= 2)%Z /\
  visibleToasts
    (dispatchAll id
       (map tsxAction
          [ TsxAddToast "a1" "saved" None;
            TsxAddToast "b2" "sent" None;
            TsxAddToast "c3" "done" None;
            TsxRemoveToast "a1";
            TsxAddToast "d4" "queued" None ])) 2 =
  [ tsxPayload "b2" "sent" None; tsxPayload "c3" "done" None ].
Proof.
  split; [lia|].
  destruct (toast_provider_bounds_visible
              [ TsxAddToast "a1" "saved" None;
                TsxAddToast "b2" "sent" None;
                TsxAddToast "c3" "done" None;
                TsxRemoveToast "a1";
                TsxAddToast "d4" "queued" None ] [] 5000 2)
    as [(Hvis & _) _]; [lia|].
  rewrite Hvis. reflexivity.
Defined.

End ToasterFacts.

(** ** How the effects of computations compose *)

Module EffectsFacts.

Import Js Json Catalog Io Cli Effects JsFacts CatalogFacts CliFacts.

(** *** Events added to the trace *)

Lemma emitsOnly_ret {A : Type} (P : event -> bool) (a : A) :
  emitsOnly P (ret a).
Proof. intros w. exists []. split; reflexivity. Qed.

Lemma emitsOnly_throw {A : Type} (P : event -> bool) (e : exn) :
  emitsOnly P (@throw A e).
Proof. intros w. exists []. split; reflexivity. Qed.

Lemma emitsOnly_getWorld (P : event -> bool) : emitsOnly P getWorld.
Proof. intros w. exists []. split; reflexivity. Qed.

Lemma emitsOnly_setFs (P : event -> bool) (f : gmap string node) :
  emitsOnly P (setFs f).
Proof. intros w. exists []. split; reflexivity. Qed.

Lemma emitsOnly_emit (P : event -> bool) (e : event) :
  P e = true -> emitsOnly P (emit e).
Proof.
  intros He w. exists [e]. split; [reflexivity|].
  cbn. rewrite He. reflexivity.
Qed.

Lemma emitsOnly_log (P : event -> bool) (m : message) :
  P (EvLog m) = true -> emitsOnly P (log m).
Proof. apply emitsOnly_emit. Qed.

Lemma emitsOnly_bind {A B : Type} (P : event -> bool) (m : M A)
    (k : A -> M B) :
  emitsOnly P m -> (forall a, emitsOnly P (k a)) -> emitsOnly P (bind m k).
Proof.
  intros Hm Hk w. unfold bind.
  destruct (Hm w) as (new1 & H1 & HP1).
  destruct (m w) as [[a|e] w1]; cbn [snd] in H1.
  - destruct (Hk a w1) as (new2 & H2 & HP2).
    exists (new2 ++ new1). rewrite H2, H1, app_assoc. split; [reflexivity|].
    rewrite forallb_app, HP1, HP2. reflexivity.
  - exists new1. split; assumption.
Qed.

Lemma emitsOnly_tryCatch {A : Type} (P : event -> bool) (m : M A)
    (h : exn -> M A) :
  emitsOnly P m -> (forall e, emitsOnly P (h e)) -> emitsOnly P (tryCatch m h).
Proof.
  intros Hm Hh w. unfold tryCatch.
  destruct (Hm w) as (new1 & H1 & HP1).
  destruct (m w) as [[a|e] w1]; cbn [snd] in H1.
  - exists new1. split; assumption.
  - destruct (Hh e w1) as (new2 & H2 & HP2).
    exists (new2 ++ new1). rewrite H2, H1, app_assoc. split; [reflexivity|].
    rewrite forallb_app, HP1, HP2. reflexivity.
Qed.

(** Breaks a computation into its calls, for a concrete class of events. *)
Ltac emits_step :=
  first
    [ apply emitsOnly_ret
    | apply emitsOnly_throw
    | apply emitsOnly_getWorld
    | apply emitsOnly_setFs
    | apply emitsOnly_emit; reflexivity
    | apply emitsOnly_log; reflexivity
    | apply emitsOnly_bind; [|intros ?]
    | apply emitsOnly_tryCatch; [|intros ?]
    | match goal with
      | |- emitsOnly _ (match ?x with _ => _ end) => destruct x
      | |- emitsOnly _ (if ?b then _ else _) => destruct b
      end ].

Ltac emits := repeat emits_step.

(** *** Files left as they are *)

Lemma keepsFiles_ret {A : Type} (a : A) : keepsFiles (ret a).
Proof. intros w. reflexivity. Qed.

Lemma keepsFiles_throw {A : Type} (e : exn) : keepsFiles (@throw A e).
Proof. intros w. reflexivity. Qed.

Lemma keepsFiles_getWorld : keepsFiles getWorld.
Proof. intros w. reflexivity. Qed.

Lemma keepsFiles_emit (e : event) : keepsFiles (emit e).
Proof. intros w. reflexivity. Qed.

Lemma keepsFiles_log (m : message) : keepsFiles (log m).
Proof. intros w. reflexivity. Qed.

Lemma keepsFiles_bind {A B : Type} (m : M A) (k : A -> M B) :
  keepsFiles m -> (forall a, keepsFiles (k a)) -> keepsFiles (bind m k).
Proof.
  intros Hm Hk w. unfold bind. specialize (Hm w).
  destruct (m w) as [[a|e] w1]; cbn [snd] in Hm.
  - rewrite Hk. exact Hm.
  - exact Hm.
Qed.

Lemma keepsFiles_tryCatch {A : Type} (m : M A) (h : exn -> M A) :
  keepsFiles m -> (forall e, keepsFiles (h e)) -> keepsFiles (tryCatch m h).
Proof.
  intros Hm Hh w. unfold tryCatch. specialize (Hm w).
  destruct (m w) as [[a|e] w1]; cbn [snd] in Hm.
  - exact Hm.
  - rewrite Hh. exact Hm.
Qed.

Ltac keeps_step :=
  first
    [ apply keepsFiles_ret
    | apply keepsFiles_throw
    | apply keepsFiles_getWorld
    | apply keepsFiles_emit
    | apply keepsFiles_log
    | apply keepsFiles_bind; [|intros ?]
    | apply keepsFiles_tryCatch; [|intros ?]
    | match goal with
      | |- keepsFiles (match ?x with _ => _ end) => destruct x
      | |- keepsFiles (if ?b then _ else _) => destruct b
      end ].

Ltac keeps := repeat keeps_step.

(** *** Promises that are never rejected *)

Lemma neverThrows_ret {A : Type} (a : A) : neverThrows (ret a).
Proof. intros w. exists a. reflexivity. Qed.

Lemma neverThrows_getWorld : neverThrows getWorld.
Proof. intros w. exists w. reflexivity. Qed.

Lemma neverThrows_setFs (f : gmap string node) : neverThrows (setFs f).
Proof. intros w. exists tt. reflexivity. Qed.

Lemma neverThrows_emit (e : event) : neverThrows (emit e).
Proof. intros w. exists tt. reflexivity. Qed.

Lemma neverThrows_log (m : message) : neverThrows (log m).
Proof. apply neverThrows_emit. Qed.

Lemma neverThrows_bind {A B : Type} (m : M A) (k : A -> M B) :
  neverThrows m -> (forall a, neverThrows (k a)) -> neverThrows (bind m k).
Proof.
  intros Hm Hk w. unfold bind. destruct (Hm w) as (a & Ha).
  destruct (m w) as [[a'|e] w1]; cbn [fst] in Ha; [|discriminate].
  apply Hk.
Qed.

(** A [try] whose handler returns always returns. *)
Lemma neverThrows_tryCatch {A : Type} (m : M A) (h : exn -> M A) :
  (forall e, neverThrows (h e)) -> neverThrows (tryCatch m h).
Proof.
  intros Hh w. unfold tryCatch.
  destruct (m w) as [[a|e] w1]; [exists a; reflexivity | apply Hh].
Qed.

Ltac returns_step :=
  first
    [ apply neverThrows_ret
    | apply neverThrows_getWorld
    | apply neverThrows_setFs
    | apply neverThrows_emit
    | apply neverThrows_log
    | apply neverThrows_tryCatch; intros ?
    | apply neverThrows_bind; [|intros ?]
    | match goal with
      | |- neverThrows (match ?x with _ => _ end) => destruct x
      | |- neverThrows (if ?b then _ else _) => destruct b
      end ].

Ltac returns := repeat returns_step.

(** A computation that always returns, keeps the files and only adds calls
    of a class has runs of one shape. *)
Lemma run_shape {A : Type} (P : event -> bool) (m : M A) :
  neverThrows m -> keepsFiles m -> emitsOnly P m ->
  forall w,
    exists a new,
      m w = (Ok a, {| fs := fs w; trace := new ++ trace w |}) /\
      forallb P new = true.
Proof.
  intros Hr Hk He w.
  destruct (Hr w) as (a & Ha). specialize (Hk w).
  destruct (He w) as (new & Hnew & HP).
  destruct (m w) as [r [files events]]. cbn [fst snd fs trace] in *.
  subst. exists a, new. split; [reflexivity | exact HP].
Qed.

(** *** The prerequisite check *)

Lemma checkTailwindSetup_emits (E : Env) :
  emitsOnly isReadOnly (checkTailwindSetup E).
Proof.
  unfold checkTailwindSetup, readTailwindDependency, readJson, readFile,
    existsSync.
  emits.
Qed.

Lemma checkTailwindSetup_keepsFiles (E : Env) :
  keepsFiles (checkTailwindSetup E).
Proof.
  unfold checkTailwindSetup, readTailwindDependency, readJson, readFile,
    existsSync.
  keeps.
Qed.

Lemma checkTailwindSetup_neverThrows (E : Env) :
  neverThrows (checkTailwindSetup E).
Proof. intros w. apply checkTailwindSetup_returns. Qed.

(** X1: the prerequisite check is read-only.  On every project it returns a
    boolean (an unreadable or malformed package.json is caught and gives
    false), it leaves every file as it is, and its only calls are
    [fs.existsSync], [fs.readJson] and [console.log]. *)
Theorem checkTailwindSetup_read_only (E : Env) (w : World) :
  exists b new,
    checkTailwindSetup E w =
      (Ok b, {| fs := fs w; trace := new ++ trace w |}) /\
    forallb isReadOnly new = true.
Proof.
  apply (run_shape isReadOnly).
  - apply checkTailwindSetup_neverThrows.
  - apply checkTailwindSetup_keepsFiles.
  - apply checkTailwindSetup_emits.
Qed.

Lemma isV3_nonempty (version : string) :
  isV3 version = true -> truthy (Some (JStr version)) = true.
Proof. destruct version; [discriminate | reflexivity]. Qed.

(** X2: the check reports the prerequisite as satisfied exactly when
    package.json can be read and parsed, the merged dependency tables give
    [tailwindcss] as a text that starts with "3", "^3" or "~3", and both
    tailwind.config.js and postcss.config.js exist. *)
Theorem checkTailwindSetup_satisfied_iff (E : Env) (w : World) :
  fst (checkTailwindSetup E w) = Ok true <->
  exists content packageJson deps devDeps version,
    fs w !! pathJoin E (cwd E) "package.json" = Some (File content) /\
    parseJson E content = Some packageJson /\
    getField packageJson "dependencies" = Some deps /\
    getField packageJson "devDependencies" = Some devDeps /\
    spreadProp deps devDeps "tailwindcss" = Some (JStr version) /\
    isV3 version = true /\
    existsInProject E w "tailwind.config.js" = true /\
    existsInProject E w "postcss.config.js" = true.
Proof.
  split; [apply checkTailwindSetup_true_inv|].
  intros (content & packageJson & deps & devDeps & version &
          Hfile & Hparse & Hdeps & Hdev & Hspread & Hv3 & Htw & Hpc).
  unfold existsInProject in Htw, Hpc.
  unfold checkTailwindSetup, readTailwindDependency, readJson, readFile,
    existsSync.
  io_unfold. cbn [fs trace].
  rewrite Hfile, Hparse, Hdeps, Hdev, Hspread, (isV3_nonempty _ Hv3), Hv3.
  cbn [negb fs trace]. rewrite Htw. cbn [fs trace]. rewrite Hpc.
  reflexivity.
Qed.


(** *** The provisioner *)

Lemma detect_read_only (E : Env) (w : World) :
  exists new,
    detectPackageManager_setupTailwind E w =
      (Ok (lockfileRule (existsInProject E w "yarn.lock")
             (existsInProject E w "pnpm-lock.yaml")),
       {| fs := fs w; trace := new ++ trace w |}) /\
    forallb isReadOnly new = true /\
    detectPackageManager_installDependencies E w =
    detectPackageManager_setupTailwind E w.
Proof.
  unfold detectPackageManager_installDependencies,
    detectPackageManager_setupTailwind, existsInProject, lockfileRule.
  io_prims. io_unfold. cbn [fs trace].
  destruct (bool_decide (is_Some (fs w !! pathJoin E (cwd E) "yarn.lock"))).
  - exists [EvExists (pathJoin E (cwd E) "yarn.lock")].
    repeat split; reflexivity.
  - cbn [fs trace].
    destruct (bool_decide (is_Some (fs w !! pathJoin E (cwd E) "pnpm-lock.yaml")));
      exists [EvExists (pathJoin E (cwd E) "pnpm-lock.yaml");
              EvExists (pathJoin E (cwd E) "yarn.lock")];
      repeat split; reflexivity.
Qed.

(** X3: when the install command of the provisioner fails, [setupTailwind]
    returns false without writing anything: every file is as before, the
    two configuration files included, and after detecting the package
    manager the run consists of the failed command and the report, which
    ends with the manual steps quoting that command. *)
Theorem setupTailwind_install_failure (E : Env) (w : World) :
  let pm := lockfileRule (existsInProject E w "yarn.lock")
              (existsInProject E w "pnpm-lock.yaml") in
  (forall w', fs w' = fs w -> runShell E w' (tailwindInstallCmd pm) = None) ->
  exists detection,
    setupTailwind E w =
      (Ok false,
       {| fs := fs w;
          trace :=
            [ EvLog (MsgManualSteps (tailwindInstallCmd pm));
              EvLog (MsgSetupFailed (CommandFailed (tailwindInstallCmd pm)));
              EvExec (tailwindInstallCmd pm);
              EvLog MsgInstallingTailwind ] ++ detection ++ trace w |}) /\
    forallb isReadOnly detection = true.
Proof.
  intros pm Hfail. unfold setupTailwind. unfold bind at 1.
  destruct (detect_read_only E w) as (detection & -> & Hread & _).
  fold pm. unfold execSync. io_unfold. cbn [fs trace].
  rewrite Hfail by reflexivity.
  exists detection. split; [reflexivity | exact Hread].
Qed.

(** A project without lockfile, on a machine where the install fails. *)
Lemma setupTailwind_install_failure_witness :
  fst (setupTailwind failingShellEnv staleConfigWorld) = Ok false /\
  fs (snd (setupTailwind failingShellEnv staleConfigWorld)) =
    fs staleConfigWorld.
Proof.
  destruct (setupTailwind_install_failure failingShellEnv staleConfigWorld)
    as (detection & Hrun & _); [reflexivity|].
  rewrite Hrun. split; reflexivity.
Defined.

Lemma detect_neverThrows (E : Env) :
  neverThrows (detectPackageManager_setupTailwind E) /\
  neverThrows (detectPackageManager_installDependencies E).
Proof.
  split; intros w; destruct (detect_read_only E w) as (new & H1 & _ & H2);
    rewrite ?H2, H1; eexists; reflexivity.
Qed.

Lemma setupTailwind_neverThrows (E : Env) : neverThrows (setupTailwind E).
Proof.
  unfold setupTailwind. apply neverThrows_bind; [apply detect_neverThrows|].
  intros pm. returns.
Qed.

Lemma installDependencies_neverThrows (E : Env) (deps : list string)
    (dev : bool) :
  neverThrows (installDependencies E deps dev).
Proof.
  unfold installDependencies. destruct deps; [apply neverThrows_ret|].
  apply neverThrows_bind; [apply detect_neverThrows|].
  intros pm. returns.
Qed.

Lemma requireTailwind_neverThrows (E : Env) (k : ItemKind)
    (flag : option bool) :
  neverThrows (requireTailwind E k flag).
Proof.
  unfold requireTailwind, promptConfirm.
  returns;
    first [apply checkTailwindSetup_neverThrows | apply setupTailwind_neverThrows].
Qed.

Lemma downloadFiles_neverThrows (E : Env) (dir : string)
    (toDownload : list ComponentFile) :
  neverThrows (downloadFiles E dir toDownload).
Proof.
  induction toDownload as [|file rest IH]; [apply neverThrows_ret|].
  cbn [downloadFiles]. apply neverThrows_bind; [|intros _; exact IH].
  returns.
Qed.

Lemma updateIndex_neverThrows (E : Env) (dir name : string) (fmt : Format)
    (statement : string) :
  neverThrows (updateIndex E dir name fmt statement).
Proof. unfold updateIndex. returns. Qed.

(** X4: the steps of an installation never reject: whatever the shell, the
    network, the file system and the operator do, [setupTailwind], the
    Tailwind gate, [installDependencies], the download loop and the index
    update catch every failure and return. *)
Theorem installation_steps_never_reject (E : Env) (w : World) (k : ItemKind)
    (flag : option bool) (deps : list string) (dev : bool)
    (dir name statement : string) (toDownload : list ComponentFile)
    (fmt : Format) :
  (exists b, fst (setupTailwind E w) = Ok b) /\
  fst (requireTailwind E k flag w) = Ok tt /\
  fst (installDependencies E deps dev w) = Ok tt /\
  fst (downloadFiles E dir toDownload w) = Ok tt /\
  fst (updateIndex E dir name fmt statement w) = Ok tt.
Proof.
  split; [apply setupTailwind_neverThrows|].
  split; [destruct (requireTailwind_neverThrows E k flag w) as ([] & H); exact H|].
  split; [destruct (installDependencies_neverThrows E deps dev w) as ([] & H);
          exact H|].
  split; [destruct (downloadFiles_neverThrows E dir toDownload w) as ([] & H);
          exact H|].
  destruct (updateIndex_neverThrows E dir name fmt statement w) as ([] & H).
  exact H.
Qed.


(** *** Rejections of [fetchComponent] and [fetchTemplate] *)

Lemma ensureDir_cases (path : string) (w : World) :
  fst (ensureDir path w) = Ok tt \/
  exists e,
    fst (ensureDir path w) = Throw e /\
    hd_error (trace (snd (ensureDir path w))) = Some (EvEnsureDir path).
Proof.
  unfold ensureDir. io_unfold. cbn [fs trace].
  destruct (fs w !! path) as [[?|]|]; cbn [fst snd trace]; eauto.
Qed.

(** A step that returns, then [fs.ensureDir], then steps that return: a
    rejection comes from [fs.ensureDir], which is then the last call. *)
Lemma ensureDir_only_rejection {A : Type} (before : M A) (path : string)
    (after : M unit) (w : World) :
  neverThrows before -> neverThrows after ->
  let run := bind before (fun _ => bind (ensureDir path) (fun _ => after)) in
  fst (run w) = Ok tt \/
  exists e,
    fst (run w) = Throw e /\
    hd_error (trace (snd (run w))) = Some (EvEnsureDir path).
Proof.
  intros Hb Ha run. unfold run, bind.
  destruct (Hb w) as (a & Hrun).
  destruct (before w) as [[a'|e] w1]; cbn [fst] in Hrun; [|discriminate].
  destruct (ensureDir_cases path w1) as [Hok|(e & Hthrow & Hlast)].
  - destruct (ensureDir path w1) as [[[]|e] w2]; cbn [fst] in Hok;
      [|discriminate].
    left. destruct (Ha w2) as ([] & H). exact H.
  - destruct (ensureDir path w1) as [[[]|e'] w2]; cbn [fst snd] in *;
      [discriminate|].
    right. exists e. split; assumption.
Qed.

Lemma inCatalog_lookup (k : ItemKind) (name : string) :
  inCatalog k name = true ->
  match k with
  | Component => exists component, jsLookup components name = Own component
  | Template => exists template, jsLookup templates name = Own template
  end.
Proof.
  destruct k; unfold inCatalog; intros H;
    apply bool_decide_eq_true in H as [c Hc]; exists c;
    unfold jsLookup; rewrite Hc; reflexivity.
Qed.

(** X5: called with a format on an item of its catalog, [fetchComponent]
    or [fetchTemplate] can be rejected by one call only, [fs.ensureDir] on
    the directory of the item: a call that is rejected ends right after
    that call.  Every other failure (check, provisioning, download,
    dependency install, index update) is caught and reported, and the call
    returns. *)
Theorem fetch_rejected_only_by_ensureDir (E : Env) (k : ItemKind)
    (name targetDir : string) (fmt : Format) (w : World) :
  inCatalog k name = true ->
  fst (fetchItem E k name targetDir fmt w) = Ok tt \/
  exists e,
    fst (fetchItem E k name targetDir fmt w) = Throw e /\
    hd_error (trace (snd (fetchItem E k name targetDir fmt w))) =
      Some (EvEnsureDir (itemDir E targetDir name)).
Proof.
  intros Hin. pose proof (inCatalog_lookup k name Hin) as Hlookup.
  destruct k; destruct Hlookup as (c & Hc); unfold fetchItem, itemDir.
  - unfold fetchComponent. rewrite Hc.
    apply ensureDir_only_rejection;
      [apply requireTailwind_neverThrows|].
    unfold updateComponentIndex.
    returns;
      first [ apply downloadFiles_neverThrows
            | apply installDependencies_neverThrows
            | apply updateIndex_neverThrows ].
  - unfold fetchTemplate. rewrite Hc.
    destruct (indexStatement_line Template name fmt Hin)
      as (symbol & _ & _ & Hstep).
    assert (Hown : templates !! name = Some c).
    { unfold jsLookup in Hc. destruct (templates !! name); [congruence|].
      destruct (bool_decide _); discriminate. }
    apply ensureDir_only_rejection;
      [apply requireTailwind_neverThrows|].
    specialize (Hstep E (pathJoin E (cwd E) targetDir)).
    unfold indexStep in Hstep. rewrite Hown in Hstep. rewrite Hstep.
    returns;
      first [ apply downloadFiles_neverThrows
            | apply installDependencies_neverThrows
            | apply updateIndex_neverThrows ].
Qed.

(** A file named like the button's directory makes the install fail at
    [fs.ensureDir]. *)
Lemma fetch_rejected_only_by_ensureDir_witness :
  inCatalog Component "button" = true /\
  hd_error (trace (snd (fetchItem decliningEnv Component "button"
                          "src/components" tsx buttonFileWorld))) =
    Some (EvEnsureDir "/project/src/components/button").
Proof.
  split; [vm_compute; reflexivity|].
  destruct (fetch_rejected_only_by_ensureDir decliningEnv Component
              "button" "src/components" tsx buttonFileWorld)
    as [H|(e & _ & H)];
    [vm_compute; reflexivity | | exact H].
  vm_compute in H. discriminate.
Defined.

(** *** The download loop *)

Lemma gets_app (l1 l2 : list event) : gets (l1 ++ l2) = gets l1 ++ gets l2.
Proof. unfold gets. apply omap_app. Qed.

(** One turn of the loop: the file is requested; when the request succeeds
    and no directory stands at the destination, the response is written
    there as it is; else nothing is written.  The turn returns. *)
Lemma downloadFiles_one (E : Env) (dir : string) (file : ComponentFile)
    (w : World) :
  exists new,
    downloadFiles E dir [file] w =
      (Ok tt,
       {| fs :=
            match axiosGet E (traced (EvGet (url file)) w) (url file),
                  fs w !! destPath E dir file with
            | Some data, Some Dir => fs w
            | Some data, _ => <[ destPath E dir file := File data ]> (fs w)
            | None, _ => fs w
            end;
          trace := new ++ trace w |}) /\
    gets new = [url file].
Proof.
  cbn [downloadFiles]. unfold axios_get, writeFile, destPath. io_unfold.
  cbn [fs trace].
  destruct (axiosGet E _ (url file)) as [data|]; cbn [fs trace].
  - destruct (fs w !! pathJoin E dir (filename file)) as [[?|]|];
      cbn [fs trace].
    + eexists (_ :: _ :: _ :: []). split; reflexivity.
    + eexists (_ :: _ :: _ :: []). split; reflexivity.
    + eexists (_ :: _ :: _ :: []). split; reflexivity.
  - eexists (_ :: _ :: []). split; reflexivity.
Qed.

Lemma downloadFiles_cons (E : Env) (dir : string) (file : ComponentFile)
    (rest : list ComponentFile) (w : World) :
  downloadFiles E dir (file :: rest) w =
  downloadFiles E dir rest (snd (downloadFiles E dir [file] w)).
Proof.
  destruct (downloadFiles_one E dir file w) as (new & Hone & _).
  cbn [downloadFiles] in *.
  set (step := tryCatch _ _) in *.
  unfold bind in *.
  destruct (step w) as [[[]|e] w1]; [reflexivity | discriminate].
Qed.

Lemma downloadFiles_run (E : Env) (dir : string)
    (toDownload : list ComponentFile) (w : World) :
  exists new w',
    downloadFiles E dir toDownload w = (Ok tt, w') /\
    trace w' = new ++ trace w /\
    rev (gets new) = map url toDownload.
Proof.
  revert w. induction toDownload as [|file rest IH]; intros w.
  - exists [], w. repeat split; reflexivity.
  - rewrite downloadFiles_cons.
    destruct (downloadFiles_one E dir file w) as (new1 & -> & Hgets1).
    cbn [snd].
    match goal with
    | |- context [downloadFiles E dir rest ?w1] =>
        destruct (IH w1) as (new2 & w' & Hrun & Htrace & Hgets2)
    end.
    exists (new2 ++ new1), w'. split; [exact Hrun|].
    cbn [trace] in Htrace. rewrite Htrace, app_assoc. split; [reflexivity|].
    rewrite gets_app, rev_app_distr, Hgets1, Hgets2. reflexivity.
Qed.

(** X6: the download loop requests every file of its list exactly once, in
    the order of the list, whatever happens to the earlier files: a failed
    request or a failed write is reported and the loop goes on; the loop
    itself returns. *)
Theorem downloadFiles_requests_each_file (E : Env) (dir : string)
    (toDownload : list ComponentFile) (w : World) :
  exists new w',
    downloadFiles E dir toDownload w = (Ok tt, w') /\
    trace w' = new ++ trace w /\
    rev (gets new) = map url toDownload.
Proof.
  apply downloadFiles_run.
Qed.

(** X7: the download loop only touches the destinations of its files:
    every other path of the project holds afterwards what it held
    before. *)
Theorem downloadFiles_frame (E : Env) (dir : string)
    (toDownload : list ComponentFile) (w : World) (path : string) :
  (forall file, List.In file toDownload -> destPath E dir file <> path) ->
  fs (snd (downloadFiles E dir toDownload w)) !! path = fs w !! path.
Proof.
  revert w. induction toDownload as [|file rest IH]; intros w Hpath.
  - reflexivity.
  - rewrite downloadFiles_cons.
    destruct (downloadFiles_one E dir file w) as (new1 & -> & _).
    cbn [snd]. rewrite IH by (intros f Hf; apply Hpath; right; exact Hf).
    cbn [fs].
    assert (Hne : destPath E dir file <> path) by (apply Hpath; left; reflexivity).
    destruct (axiosGet E _ (url file)) as [data|]; [|reflexivity].
    destruct (fs w !! destPath E dir file) as [[?|]|];
      rewrite ?lookup_insert_ne by exact Hne; reflexivity.
Qed.

(** The package.json of a project is not touched by a download of the
    button. *)
Lemma downloadFiles_frame_witness :
  fs (snd (downloadFiles onlineEnv "/project/src/components/button"
             buttonTsxFiles tailwind30World)) !! "/project/package.json" =
  Some (File packageJson30Text).
Proof.
  rewrite (downloadFiles_frame onlineEnv "/project/src/components/button"
             buttonTsxFiles tailwind30World "/project/package.json").
  - vm_compute. reflexivity.
  - intros file Hin. cbn in Hin.
    repeat (destruct Hin as [<-|Hin]; [vm_compute; discriminate|]).
    destruct Hin.
Defined.

(** X8: a file whose request succeeds is written byte for byte: when the
    destinations of the list are pairwise distinct, the request of a file
    of the list answers [data], and no directory stands at its destination,
    that destination holds exactly [data] after the loop. *)
Theorem downloadFiles_writes_response (E : Env) (dir : string)
    (toDownload : list ComponentFile) (w : World) (file : ComponentFile)
    (data : string) :
  List.In file toDownload ->
  List.NoDup (map (destPath E dir) toDownload) ->
  (forall w', axiosGet E w' (url file) = Some data) ->
  fs w !! destPath E dir file <> Some Dir ->
  fs (snd (downloadFiles E dir toDownload w)) !! destPath E dir file =
    Some (File data).
Proof.
  revert w. induction toDownload as [|head rest IH];
    intros w Hin Hnodup Hget Hdir; [destruct Hin|].
  apply NoDup_cons_iff in Hnodup as [Hhead Hrest].
  rewrite downloadFiles_cons.
  destruct (downloadFiles_one E dir head w) as (new1 & Hone & _).
  destruct Hin as [->|Hin].
  - rewrite downloadFiles_frame.
    + rewrite Hone. cbn [snd fs]. rewrite Hget.
      destruct (fs w !! destPath E dir file) as [[?|]|];
        [apply lookup_insert_eq | congruence | apply lookup_insert_eq].
    + intros f Hf Heq. apply Hhead. rewrite <- Heq.
      apply in_map, Hf.
  - apply IH; try assumption.
    rewrite Hone. cbn [snd fs].
    assert (Hne : destPath E dir head <> destPath E dir file).
    { intros Heq. apply Hhead. rewrite Heq. apply in_map, Hin. }
    destruct (axiosGet E _ (url head)) as [d|]; [|exact Hdir].
    destruct (fs w !! destPath E dir head) as [[?|]|];
      rewrite ?lookup_insert_ne by exact Hne; exact Hdir.
Qed.

(** The stylesheet of the button, downloaded into an empty project. *)
Lemma downloadFiles_writes_response_witness :
  fs (snd (downloadFiles onlineEnv "/project/src/components/button"
             buttonTsxFiles emptyWorld))
    !! "/project/src/components/button/button-animations.css" =
  Some (File ("/* " +:+ rawHost +:+
              "components/button/button-animations.css")).
Proof.
  apply (downloadFiles_writes_response onlineEnv
           "/project/src/components/button" buttonTsxFiles emptyWorld
           (mkFile "button-animations.css"
              (rawHost +:+ "components/button/button-animations.css") None)).
  - right. left. reflexivity.
  - vm_compute. repeat constructor; cbn; intuition discriminate.
  - intros w'. reflexivity.
  - vm_compute. discriminate.
Defined.


(** *** The dependency installer when the shell fails *)

(** X9: when the install command fails, [installDependencies] changes no
    file and returns; after detecting the package manager it has run that
    one command and printed the failure followed by the command itself,
    verbatim, for the operator to run by hand. *)
Theorem installDependencies_failure_reports_command (E : Env) (w : World)
    (d : string) (rest : list string) (dev : bool) :
  let pm := lockfileRule (existsInProject E w "yarn.lock")
              (existsInProject E w "pnpm-lock.yaml") in
  let command := installCommand pm dev (d :: rest) in
  (forall w', fs w' = fs w -> runShell E w' command = None) ->
  exists detection,
    installDependencies E (d :: rest) dev w =
      (Ok tt,
       {| fs := fs w;
          trace :=
            [ EvLog (MsgManualCommand command);
              EvLog MsgDepsFailed;
              EvExec command;
              EvLog MsgInstallingDeps ] ++ detection ++ trace w |}) /\
    forallb isReadOnly detection = true.
Proof.
  intros pm command Hfail. unfold installDependencies. unfold bind at 1.
  destruct (detect_read_only E w) as (detection & Hrun & Hread & ->).
  rewrite Hrun. fold pm. fold command. unfold execSync. io_unfold.
  cbn [fs trace]. rewrite Hfail by reflexivity.
  exists detection. split; [reflexivity | exact Hread].
Qed.

(** Installing clsx on a machine where the shell fails. *)
Lemma installDependencies_failure_reports_command_witness :
  fst (installDependencies failingShellEnv ["clsx"] false emptyWorld) = Ok tt /\
  fs (snd (installDependencies failingShellEnv ["clsx"] false emptyWorld)) =
    fs emptyWorld /\
  hd_error (trace (snd (installDependencies failingShellEnv ["clsx"] false
                          emptyWorld))) =
    Some (EvLog (MsgManualCommand "npm install  clsx")).
Proof.
  destruct (installDependencies_failure_reports_command failingShellEnv
              emptyWorld "clsx" [] false) as (detection & Hrun & _);
    [reflexivity|].
  rewrite Hrun. repeat split; reflexivity.
Defined.

(** *** The Tailwind gate *)

Lemma forallb_weaken {A : Type} (P Q : A -> bool) (l : list A) :
  (forall a, P a = true -> Q a = true) ->
  forallb P l = true -> forallb Q l = true.
Proof.
  intros HPQ. induction l as [|a l IH]; [reflexivity|].
  cbn [forallb]. rewrite !andb_true_iff. intros [Ha Hl].
  split; [apply HPQ, Ha | apply IH, Hl].
Qed.

Lemma isReadOnly_isReadOrAsk (e : event) :
  isReadOnly e = true -> isReadOrAsk e = true.
Proof. destruct e; cbn; congruence. Qed.

Lemma checkTailwindSetup_run (E : Env) (w : World) :
  exists b new,
    checkTailwindSetup E w =
      (Ok b, {| fs := fs w; trace := new ++ trace w |}) /\
    forallb isReadOnly new = true.
Proof.
  apply (run_shape isReadOnly).
  - apply checkTailwindSetup_neverThrows.
  - apply checkTailwindSetup_keepsFiles.
  - apply checkTailwindSetup_emits.
Qed.

(** X10: the Tailwind gate provisions nothing without need and consent.
    When the check is satisfied, or when the operator does not confirm, it
    returns with every file as before, and all it did was look at the
    project, print and (in the second case) ask: no shell command, no
    write, no download. *)
Theorem requireTailwind_without_consent (E : Env) (k : ItemKind)
    (flag : option bool) (w : World) :
  fst (checkTailwindSetup E w) = Ok true \/
  (forall w', answerConfirm E w' (AskSetupTailwindNow k) = false) ->
  exists new,
    requireTailwind E k flag w =
      (Ok tt, {| fs := fs w; trace := new ++ trace w |}) /\
    forallb isReadOrAsk new = true.
Proof.
  intros Hcase. unfold requireTailwind.
  assert (Hskip : exists new,
            @ret unit tt w = (Ok tt, {| fs := fs w; trace := new ++ trace w |}) /\
            forallb isReadOrAsk new = true).
  { exists []. split; [destruct w; reflexivity | reflexivity]. }
  destruct flag as [[]|]; try exact Hskip.
  unfold bind at 1.
  destruct (checkTailwindSetup_run E w) as (b & new & Hrun & Hread).
  rewrite Hrun in *. cbn [fst] in Hcase.
  apply (forallb_weaken _ _ _ isReadOnly_isReadOrAsk) in Hread.
  destruct b; cbn [negb].
  - exists new. split; [reflexivity | exact Hread].
  - destruct Hcase as [Habs|Hdecline]; [discriminate|].
    unfold promptConfirm. io_unfold. cbn [fs trace].
    rewrite Hdecline.
    exists (EvLog (MsgProceedWithoutSetup k)
            :: EvPrompt (AskSetupTailwindNow k) :: new).
    split; [reflexivity|]. cbn [forallb isReadOrAsk]. exact Hread.
Qed.

(** The operator declines: the stale project is left alone. *)
Lemma requireTailwind_without_consent_witness :
  fst (requireTailwind decliningEnv Component (Some true) staleConfigWorld) =
    Ok tt /\
  fs (snd (requireTailwind decliningEnv Component (Some true)
             staleConfigWorld)) = fs staleConfigWorld.
Proof.
  destruct (requireTailwind_without_consent decliningEnv Component
              (Some true) staleConfigWorld) as (new & Hrun & _);
    [right; intros w'; reflexivity|].
  rewrite Hrun. split; reflexivity.
Defined.

(** *** The stylesheet locator, run again and run on a project without
    stylesheet *)

Lemma locator_run (E : Env) (w : World) :
  exists new,
    promptsAsked new = [] /\
    createTailwindCSSFile E w =
      match firstStylesheet E (fs w) possibleCssPaths with
      | Some (cssPath, content) =>
          (Ok tt,
           {| fs := withDirectives E (fs w) cssPath content;
              trace := new ++ trace w |})
      | None => createNewCss E {| fs := fs w; trace := new ++ trace w |}
      end.
Proof.
  unfold createTailwindCSSFile. unfold bind.
  destruct (updateExistingCss_run E possibleCssPaths w) as (new & Hnew & ->).
  exists new. split; [exact Hnew|].
  destruct (firstStylesheet E (fs w) possibleCssPaths) as [[? ?]|];
    reflexivity.
Qed.

(** A stylesheet that has the marker is only looked at and read. *)
Lemma updateExistingCss_marked (E : Env) (paths : list string) (w : World)
    (cssPath content : string) :
  firstStylesheet E (fs w) paths = Some (cssPath, content) ->
  includes content "@tailwind" = true ->
  exists new,
    updateExistingCss E paths w =
      (Ok true, {| fs := fs w; trace := new ++ trace w |}) /\
    forallb isReadOnly new = true.
Proof.
  revert w. induction paths as [|c rest IH]; intros w Hfirst Hmark;
    [discriminate|].
  cbn [updateExistingCss firstStylesheet] in *.
  unfold bind at 1. unfold existsSync at 1. io_unfold. cbn [fs trace].
  destruct (fs w !! pathJoin E (cwd E) c) as [[text|]|] eqn:Hfile.
  - injection Hfirst as <- <-.
    rewrite bool_decide_eq_true_2 by eauto.
    unfold readFile. io_unfold. cbn [fs trace]. rewrite Hfile, Hmark.
    cbn [negb fs trace].
    eexists (_ :: _ :: _ :: []). split; reflexivity.
  - rewrite bool_decide_eq_true_2 by eauto.
    unfold readFile. io_unfold. cbn [fs trace]. rewrite Hfile.
    match goal with
    | |- context [updateExistingCss E rest ?w1] =>
        destruct (IH w1 Hfirst Hmark) as (new & -> & Hnew)
    end.
    cbn [fs trace].
    eexists (new ++ _ :: _ :: _ :: []). split.
    + rewrite <- !app_assoc. reflexivity.
    + rewrite forallb_app, Hnew. reflexivity.
  - rewrite bool_decide_eq_false_2 by (intros [? ?]; discriminate).
    match goal with
    | |- context [updateExistingCss E rest ?w1] =>
        destruct (IH w1 Hfirst Hmark) as (new & -> & Hnew)
    end.
    cbn [fs trace].
    eexists (new ++ _ :: []). split.
    + rewrite <- !app_assoc. reflexivity.
    + rewrite forallb_app, Hnew. reflexivity.
Qed.

Lemma firstStylesheet_insert (E : Env) (files : gmap string node)
    (paths : list string) (cssPath content text : string) :
  firstStylesheet E files paths = Some (cssPath, content) ->
  firstStylesheet E (<[ pathJoin E (cwd E) cssPath := File text ]> files) paths =
    Some (cssPath, text).
Proof.
  induction paths as [|c rest IH]; [discriminate|].
  cbn [firstStylesheet].
  destruct (files !! pathJoin E (cwd E) c) as [[old|]|] eqn:Hc; intros H.
  - injection H as <- <-. rewrite lookup_insert_eq. reflexivity.
  - destruct (firstStylesheet_In _ _ _ _ _ H) as [_ Hfile].
    rewrite lookup_insert_ne by congruence. rewrite Hc. apply IH, H.
  - destruct (firstStylesheet_In _ _ _ _ _ H) as [_ Hfile].
    rewrite lookup_insert_ne by congruence. rewrite Hc. apply IH, H.
Qed.

Lemma directives_marked (content : string) :
  includes (tailwindDirectives +:+ content) "@tailwind" = true.
Proof. apply includes_app_l. reflexivity. Qed.

(** X11: the locator is idempotent on a project that has a stylesheet at a
    conventional path: after one run, a second run finds the directives,
    returns with every file unchanged, and has only looked, read and
    printed; the directives are never put in twice. *)
Theorem stylesheet_locator_idempotent (E : Env) (w : World)
    (cssPath content : string) :
  firstStylesheet E (fs w) possibleCssPaths = Some (cssPath, content) ->
  exists w1 new,
    createTailwindCSSFile E w = (Ok tt, w1) /\
    createTailwindCSSFile E w1 =
      (Ok tt, {| fs := fs w1; trace := new ++ trace w1 |}) /\
    forallb isReadOnly new = true.
Proof.
  intros Hfirst.
  destruct (locator_run E w) as (new1 & _ & Hrun1). rewrite Hfirst in Hrun1.
  assert (Hagain : exists text,
            firstStylesheet E (withDirectives E (fs w) cssPath content)
              possibleCssPaths = Some (cssPath, text) /\
            includes text "@tailwind" = true).
  { unfold withDirectives.
    destruct (includes content "@tailwind") eqn:Hmark.
    - exists content. split; assumption.
    - exists (tailwindDirectives +:+ content).
      split; [apply firstStylesheet_insert with (content := content), Hfirst
             | apply directives_marked]. }
  destruct Hagain as (text & Hfirst2 & Hmark2).
  set (w1 := {| fs := withDirectives E (fs w) cssPath content;
                trace := new1 ++ trace w |}) in *.
  destruct (updateExistingCss_marked E possibleCssPaths w1 cssPath text
              Hfirst2 Hmark2) as (new & Hrun2 & Hnew).
  exists w1, new. split; [exact Hrun1|]. split; [|exact Hnew].
  unfold createTailwindCSSFile. unfold bind. rewrite Hrun2. reflexivity.
Qed.

(** The stylesheet of a project gets the directives once. *)
Lemma stylesheet_locator_idempotent_witness :
  firstStylesheet demoEnv (fs indexCssWorld) possibleCssPaths =
    Some ("src/index.css", "body { margin: 0 }") /\
  fs (snd (createTailwindCSSFile demoEnv
             (snd (createTailwindCSSFile demoEnv indexCssWorld)))) =
  fs (snd (createTailwindCSSFile demoEnv indexCssWorld)).
Proof.
  split; [vm_compute; reflexivity|].
  destruct (stylesheet_locator_idempotent demoEnv indexCssWorld
              "src/index.css" "body { margin: 0 }")
    as (w1 & new & Hrun1 & Hrun2 & _); [vm_compute; reflexivity|].
  rewrite Hrun1. cbn [snd]. rewrite Hrun2. reflexivity.
Defined.



(** X13: when the operator cancels the question of the locator, the path
    is undefined and the locator rejects with a TypeError before it creates
    anything: every file is as before. *)
Theorem stylesheet_prompt_cancelled (E : Env) (w : World) :
  firstStylesheet E (fs w) possibleCssPaths = None ->
  (forall w', answerText E w' AskCssPath = None) ->
  exists new,
    createTailwindCSSFile E w =
      (Throw (TypeError "the path argument must be of type string"),
       {| fs := fs w; trace := new ++ trace w |}) /\
    promptsAsked new = [AskCssPath].
Proof.
  intros Hnone Hcancel.
  destruct (locator_run E w) as (new & Hasked & ->). rewrite Hnone.
  unfold createNewCss, promptText. io_unfold. cbn [fs trace].
  rewrite Hcancel. exists (EvPrompt AskCssPath :: new).
  split; [reflexivity|]. rewrite promptsAsked_cons, Hasked. reflexivity.
Qed.

(** The operator of [decliningEnv] cancels on an empty project. *)
Lemma stylesheet_prompt_cancelled_witness :
  fst (createTailwindCSSFile decliningEnv emptyWorld) =
    Throw (TypeError "the path argument must be of type string") /\
  fs (snd (createTailwindCSSFile decliningEnv emptyWorld)) = fs emptyWorld.
Proof.
  destruct (stylesheet_prompt_cancelled decliningEnv emptyWorld)
    as (new & Hrun & _).
  - vm_compute. reflexivity.
  - intros w'. reflexivity.
  - rewrite Hrun. split; reflexivity.
Defined.


(** *** Names that are not in the catalog *)

(** X14: a name that is neither a key of the catalog nor one of the
    property names every object inherits is reported as not found, and
    that is all: the call returns, nothing is looked up, written, fetched
    or installed. *)
Theorem fetch_unknown_name_only_reports (E : Env) (k : ItemKind)
    (name targetDir : string) (fmt : Format) (w : World) :
  inCatalog k name = false ->
  ~ List.In name objectPrototypeKeys ->
  fetchItem E k name targetDir fmt w =
    (Ok tt, traced (EvLog (MsgNotFound k name)) w).
Proof.
  intros Hout Hproto.
  assert (Hundef : forall A (m : gmap string A),
            m !! name = None -> jsLookup m name = Undefined).
  { intros A m Hm. destruct (jsLookup_unknown m name Hm) as [H|[_ H]];
      [exact H | contradiction]. }
  destruct k; unfold inCatalog in Hout; apply bool_decide_eq_false in Hout;
    unfold fetchItem.
  - apply (fetch_undefined_name E name targetDir fmt w), Hundef.
    destruct (components !! name); [exfalso; eauto | reflexivity].
  - apply (fetch_undefined_name E name targetDir fmt w), Hundef.
    destruct (templates !! name); [exfalso; eauto | reflexivity].
Qed.

(** There is no card in the catalog. *)
Lemma fetch_unknown_name_only_reports_witness :
  fetchItem demoEnv Component "card" "src/components" tsx emptyWorld =
    (Ok tt, {| fs := ∅; trace := [EvLog (MsgNotFound Component "card")] |}).
Proof.
  rewrite (fetch_unknown_name_only_reports demoEnv Component "card"
             "src/components" tsx emptyWorld).
  - reflexivity.
  - vm_compute. reflexivity.
  - cbn. intuition discriminate.
Defined.

(** *** What an installation downloads *)

Lemma quiet_run {A : Type} (m : M A) (w : World) :
  emitsOnly isNotGet m ->
  exists new, trace (snd (m w)) = new ++ trace w /\ gets new = [].
Proof.
  intros Hm. destruct (Hm w) as (new & Htrace & Hnew).
  exists new. split; [exact Htrace|].
  clear Htrace. induction new as [|e new IH]; [reflexivity|].
  cbn [forallb] in Hnew. apply andb_true_iff in Hnew as [He Hnew].
  destruct e; try discriminate; apply IH, Hnew.
Qed.

Lemma updateExistingCss_quiet (E : Env) (paths : list string) :
  emitsOnly isNotGet (updateExistingCss E paths).
Proof.
  induction paths as [|c rest IH]; cbn [updateExistingCss]; [emits|].
  unfold existsSync, readFile, writeFile.
  emits; exact IH.
Qed.

Lemma detect_quiet (E : Env) :
  emitsOnly isNotGet (detectPackageManager_setupTailwind E) /\
  emitsOnly isNotGet (detectPackageManager_installDependencies E).
Proof.
  split;
    unfold detectPackageManager_setupTailwind,
      detectPackageManager_installDependencies, existsSync; emits.
Qed.

Lemma requireTailwind_quiet (E : Env) (k : ItemKind) (flag : option bool) :
  emitsOnly isNotGet (requireTailwind E k flag).
Proof.
  unfold requireTailwind, checkTailwindSetup, readTailwindDependency,
    readJson, setupTailwind, createTailwindCSSFile, createNewCss,
    promptConfirm, promptText, execSync, ensureDir, writeFile, readFile,
    existsSync.
  emits; first [apply detect_quiet | apply updateExistingCss_quiet].
Qed.

Lemma installDependencies_quiet (E : Env) (deps : list string) (dev : bool) :
  emitsOnly isNotGet (installDependencies E deps dev).
Proof.
  unfold installDependencies, execSync. emits; apply detect_quiet.
Qed.

Lemma updateIndex_quiet (E : Env) (dir name : string) (fmt : Format)
    (statement : string) :
  emitsOnly isNotGet (updateIndex E dir name fmt statement).
Proof.
  unfold updateIndex, existsSync, readFile, writeFile, appendFile. emits.
Qed.

(** The shape of an installation: steps that return and fetch nothing, the
    directory of the item, a line printed, the download loop, and steps
    that return and fetch nothing. *)
Lemma install_gets {A : Type} (E : Env) (before : M A) (path : string)
    (m : message) (dir : string) (toDownload : list ComponentFile)
    (after : M unit) (w : World) :
  neverThrows before -> emitsOnly isNotGet before ->
  neverThrows after -> emitsOnly isNotGet after ->
  let run :=
    bind before (fun _ =>
    bind (ensureDir path) (fun _ =>
    bind (log m) (fun _ =>
    bind (downloadFiles E dir toDownload) (fun _ => after)))) in
  exists new,
    trace (snd (run w)) = new ++ trace w /\
    rev (gets new) =
      match fst (run w) with
      | Ok _ => map url toDownload
      | Throw _ => []
      end.
Proof.
  intros Hb Hbq Ha Haq run.
  destruct (run w) as [r wf] eqn:Hrun. cbn [fst snd]. revert Hrun.
  unfold run. unfold bind at 1.
  destruct (Hb w) as (a & Hba). destruct (quiet_run before w Hbq)
    as (new1 & Ht1 & Hg1).
  destruct (before w) as [[a'|e] w1]; cbn [fst snd] in *; [|discriminate].
  unfold bind at 1. unfold ensureDir at 1. io_unfold. cbn [fs trace].
  destruct (fs w1 !! path) as [[?|]|]; cbn [fst snd fs trace].
  - intros Hrun. injection Hrun as <- <-. cbn [trace].
    exists (EvEnsureDir path :: new1). rewrite Ht1. split; [reflexivity|].
    change (gets (EvEnsureDir path :: new1)) with (gets new1).
    rewrite Hg1. reflexivity.
  - match goal with
    | |- context [downloadFiles E dir toDownload ?w0] =>
        destruct (downloadFiles_run E dir toDownload w0)
          as (new2 & w2 & -> & Ht2 & Hg2)
    end.
    destruct (Ha w2) as ([] & Hok). destruct (quiet_run after w2 Haq)
      as (new3 & Ht3 & Hg3).
    destruct (after w2) as [r3 w3]. cbn [fst snd] in *. subst r3.
    intros Hrun. injection Hrun as <- <-.
    exists (new3 ++ new2 ++ EvLog m :: EvEnsureDir path :: new1).
    rewrite Ht3, Ht2. cbn [trace]. rewrite Ht1.
    split; [rewrite <- !app_assoc; reflexivity|].
    rewrite !gets_app. change (gets (EvLog m :: EvEnsureDir path :: new1))
      with (gets new1).
    rewrite Hg3, Hg1, app_nil_r. exact Hg2.
  - match goal with
    | |- context [downloadFiles E dir toDownload ?w0] =>
        destruct (downloadFiles_run E dir toDownload w0)
          as (new2 & w2 & -> & Ht2 & Hg2)
    end.
    destruct (Ha w2) as ([] & Hok). destruct (quiet_run after w2 Haq)
      as (new3 & Ht3 & Hg3).
    destruct (after w2) as [r3 w3]. cbn [fst snd] in *. subst r3.
    intros Hrun. injection Hrun as <- <-.
    exists (new3 ++ new2 ++ EvLog m :: EvEnsureDir path :: new1).
    rewrite Ht3, Ht2. cbn [trace]. rewrite Ht1.
    split; [rewrite <- !app_assoc; reflexivity|].
    rewrite !gets_app. change (gets (EvLog m :: EvEnsureDir path :: new1))
      with (gets new1).
    rewrite Hg3, Hg1, app_nil_r. exact Hg2.
Qed.

(** X15: installing an item of a catalog requests exactly the files of its
    manifest that the format filter keeps, once each and in the order of
    the manifest; nothing else of the installation (check, provisioning,
    dependency install, index update) fetches anything.  When the call is
    rejected at the directory of the item, nothing was requested. *)
Theorem fetch_downloads_filtered_files (E : Env) (k : ItemKind)
    (name targetDir : string) (fmt : Format) (w : World) :
  inCatalog k name = true ->
  exists new,
    trace (snd (fetchItem E k name targetDir fmt w)) = new ++ trace w /\
    rev (gets new) =
      match fst (fetchItem E k name targetDir fmt w) with
      | Ok _ => map url (filesToDownload (catalogFiles k name) fmt)
      | Throw _ => []
      end.
Proof.
  intros Hin. pose proof (inCatalog_lookup k name Hin) as Hlookup.
  destruct k; destruct Hlookup as (c & Hc); unfold fetchItem, catalogFiles.
  - assert (Hown : components !! name = Some c).
    { unfold jsLookup in Hc. destruct (components !! name); [congruence|].
      destruct (bool_decide _); discriminate. }
    rewrite Hown. cbn [fmap option_fmap option_map default].
    unfold fetchComponent. rewrite Hc. cbv zeta.
    apply install_gets.
    + apply requireTailwind_neverThrows.
    + apply requireTailwind_quiet.
    + unfold updateComponentIndex.
      returns;
        first [ apply installDependencies_neverThrows
              | apply updateIndex_neverThrows ].
    + unfold updateComponentIndex.
      emits;
        first [ apply installDependencies_quiet | apply updateIndex_quiet ].
  - assert (Hown : templates !! name = Some c).
    { unfold jsLookup in Hc. destruct (templates !! name); [congruence|].
      destruct (bool_decide _); discriminate. }
    rewrite Hown. cbn [fmap option_fmap option_map default].
    unfold fetchTemplate. rewrite Hc. cbv zeta.
    destruct (indexStatement_line Template name fmt Hin)
      as (symbol & _ & _ & Hstep).
    specialize (Hstep E (pathJoin E (cwd E) targetDir)).
    unfold indexStep in Hstep. rewrite Hown in Hstep. rewrite Hstep.
    apply install_gets.
    + apply requireTailwind_neverThrows.
    + apply requireTailwind_quiet.
    + returns;
        first [ apply installDependencies_neverThrows
              | apply updateIndex_neverThrows ].
    + emits;
        first [ apply installDependencies_quiet | apply updateIndex_quiet ].
Qed.

(** The button in the tsx format: Button.tsx and the stylesheet are
    requested, Button.jsx is not. *)
Lemma fetch_downloads_filtered_files_witness :
  inCatalog Component "button" = true /\
  exists new,
    trace (snd (fetchItem onlineEnv Component "button" "src/components" tsx
                  emptyWorld)) = new ++ [] /\
    rev (gets new) =
      [ rawHost +:+ "components/button/Button.tsx";
        rawHost +:+ "components/button/button-animations.css" ].
Proof.
  split; [vm_compute; reflexivity|].
  destruct (fetch_downloads_filtered_files onlineEnv Component "button"
              "src/components" tsx emptyWorld) as (new & Htrace & Hgets);
    [vm_compute; reflexivity|].
  exists new. split; [exact Htrace|].
  rewrite Hgets. vm_compute. reflexivity.
Defined.


(** *** The version test of the prerequisite check *)

Lemma beforeFirstDot_3 (s : string) :
  String.eqb (beforeFirstDot s) "3" = true -> String.prefix "3" s = true.
Proof.
  destruct s as [|c s]; [discriminate|]. cbn [beforeFirstDot].
  destruct (Ascii.eqb c ".") eqn:Hdot; [discriminate|].
  intros H. apply String.eqb_eq in H. injection H as -> _.
  apply prefix_cons. split; [reflexivity | destruct s; reflexivity].
Qed.

(** X16: the version test never turns away major version 3: every
    dependency text whose major version is 3, written bare, with a caret or
    with a tilde ("3.4.1", "^3.4.1", "~3.4"), is accepted by the prefix
    test of the check. *)
Theorem isV3_accepts_major_3 (version : string) :
  hasMajorVersion3 version = true -> isV3 version = true.
Proof.
  unfold hasMajorVersion3, isV3, startsWith.
  destruct version as [|c rest]; [discriminate|].
  destruct (Ascii.eqb c "^") eqn:Hcaret; cbn [orb].
  - apply Ascii.eqb_eq in Hcaret as ->. intros H.
    apply beforeFirstDot_3 in H.
    rewrite (proj2 (prefix_cons "^" "^" "3" rest)); [reflexivity|].
    split; [reflexivity | exact H].
  - destruct (Ascii.eqb c "~") eqn:Htilde.
    + apply Ascii.eqb_eq in Htilde as ->. intros H.
      apply beforeFirstDot_3 in H.
      rewrite (proj2 (prefix_cons "~" "~" "3" rest));
        [rewrite orb_true_r; reflexivity|].
      split; [reflexivity | exact H].
    + intros H. apply beforeFirstDot_3 in H. rewrite H.
      rewrite !orb_true_r. reflexivity.
Qed.

(** A caret range on Tailwind 3. *)
Lemma isV3_accepts_major_3_witness :
  hasMajorVersion3 "^3.4.1" = true /\ isV3 "^3.4.1" = true.
Proof.
  split; [reflexivity|].
  apply (isV3_accepts_major_3 "^3.4.1"). reflexivity.
Defined.


(** *** The index file is append-only *)

Lemma app_nil_r_string (s : string) : s +:+ "" = s.
Proof. induction s as [|c s IH]; [reflexivity|]. rewrite app_cons, IH. reflexivity. Qed.

(** X23: the index update, for any export line, only ever appends to the
    index file.  Every other path is left as it was; a directory at the
    index path is left alone (the failure is caught); otherwise the index
    file afterwards holds its former text followed by nothing or by the
    line, it contains the line, and every line it contained before is
    still there. *)
Theorem updateIndex_append_only (E : Env) (dir name : string) (fmt : Format)
    (statement : string) (w : World) :
  let path := indexPath E dir fmt in
  let w' := snd (updateIndex E dir name fmt statement w) in
  (forall other, other <> path -> fs w' !! other = fs w !! other) /\
  match fs w !! path with
  | Some Dir => fs w' = fs w
  | _ =>
      exists suffix,
        (suffix = "" \/ suffix = statement) /\
        fs w' !! path = Some (File (fileText w path +:+ suffix)) /\
        includes (fileText w path +:+ suffix) statement = true /\
        forall line,
          includes (fileText w path) line = true ->
          includes (fileText w path +:+ suffix) line = true
  end.
Proof.
  intros path w'. unfold w', fileText. clear w'.
  destruct (fs w !! path) as [[content|]|] eqn:Hfile.
  - destruct (includes content statement) eqn:Hinc.
    + rewrite (updateIndex_present E dir name fmt statement content w Hfile Hinc).
      cbn [snd fs]. split; [reflexivity|].
      exists "". rewrite app_nil_r_string.
      repeat split; auto.
    + destruct (updateIndex_append E dir name fmt statement content w Hfile Hinc)
        as (new & ->).
      cbn [snd fs]. split.
      * intros other Hne. apply lookup_insert_ne. intros Heq. apply Hne. symmetry. exact Heq.
      * exists statement. split; [right; reflexivity|].
        split; [apply lookup_insert_eq|].
        split; [apply includes_app_r, includes_refl|].
        intros line Hline. apply includes_app_l, Hline.
  - unfold updateIndex. fold (indexPath E dir fmt). fold path.
    io_prims. io_unfold. cbn [fs trace].
    rewrite (exists_file _ _ _ Hfile). cbn [negb fs trace]. rewrite Hfile.
    cbn [snd fs]. split; reflexivity.
  - unfold updateIndex. fold (indexPath E dir fmt). fold path.
    io_prims. io_unfold. cbn [fs trace].
    rewrite (exists_none _ _ Hfile). cbn [negb fs trace]. rewrite Hfile.
    cbn [fs trace]. rewrite lookup_insert_eq.
    destruct (includes "" statement) eqn:Hinc; cbn [negb snd fs trace].
    + split; [intros other Hne; apply lookup_insert_ne; intros Heq; apply Hne; symmetry; exact Heq|].
      exists "". split; [left; reflexivity|].
      split; [apply lookup_insert_eq|].
      split; [exact Hinc|]. intros line Hline. exact Hline.
    + rewrite lookup_insert_eq. cbn [snd fs].
      rewrite insert_insert_eq.
      split; [intros other Hne; apply lookup_insert_ne; intros Heq; apply Hne; symmetry; exact Heq|].
      exists statement. split; [right; reflexivity|].
      split; [apply lookup_insert_eq|].
      split; [apply includes_refl|].
      intros line Hline. apply (includes_app_l "" statement line), Hline.
Qed.


(** *** The search of the stylesheet locator *)

Lemma cssWarnings_app (l1 l2 : list event) :
  cssWarnings (l1 ++ l2) = cssWarnings l1 ++ cssWarnings l2.
Proof. unfold cssWarnings. apply omap_app. Qed.

(** The loop over the conventional paths, call by call: absent paths are
    passed, directories are read in vain, reported and skipped, and the
    first regular file ends the loop. *)
Lemma updateExistingCss_search (E : Env) (paths : list string) (w : World) :
  exists skipped,
    promptsAsked skipped = [] /\
    rev (cssWarnings skipped) =
      map (fun cssPath => (cssPath, EISDIR (pathJoin E (cwd E) cssPath)))
        (unreadableBefore E (fs w) paths) /\
    updateExistingCss E paths w =
      match firstStylesheet E (fs w) paths with
      | Some (cssPath, content) =>
          (Ok true,
           {| fs := withDirectives E (fs w) cssPath content;
              trace := foundEvents E cssPath content ++ skipped ++ trace w |})
      | None => (Ok false, {| fs := fs w; trace := skipped ++ trace w |})
      end.
Proof.
  revert w. induction paths as [|cssPath rest IH]; intros w.
  - exists []. repeat split. destruct w; reflexivity.
  - cbn [updateExistingCss firstStylesheet unreadableBefore].
    unfold bind at 1. unfold existsSync at 1. io_unfold. cbn [fs trace].
    destruct (fs w !! pathJoin E (cwd E) cssPath) as [[content|]|] eqn:Hfile.
    + rewrite bool_decide_eq_true_2 by eauto.
      unfold readFile, writeFile. io_unfold. cbn [fs trace]. rewrite Hfile.
      exists []. split; [reflexivity|]. split; [reflexivity|].
      unfold withDirectives, foundEvents.
      destruct (includes content "@tailwind"); cbn [negb fs trace].
      * reflexivity.
      * rewrite Hfile. reflexivity.
    + rewrite bool_decide_eq_true_2 by eauto.
      unfold readFile. io_unfold. cbn [fs trace]. rewrite Hfile.
      match goal with
      | |- context [updateExistingCss E rest ?w1] =>
          destruct (IH w1) as (skipped & Hasked & Hwarned & ->)
      end.
      cbn [fs trace] in *.
      exists (skipped ++
              [ EvLog (MsgCssError cssPath (EISDIR (pathJoin E (cwd E) cssPath)));
                EvReadFile (pathJoin E (cwd E) cssPath);
                EvExists (pathJoin E (cwd E) cssPath) ]).
      split; [rewrite promptsAsked_app, Hasked; reflexivity|].
      split.
      * rewrite cssWarnings_app, rev_app_distr, Hwarned. reflexivity.
      * destruct (firstStylesheet E (fs w) rest) as [[c text]|];
          rewrite <- !app_assoc; reflexivity.
    + rewrite bool_decide_eq_false_2 by (intros [? ?]; discriminate).
      match goal with
      | |- context [updateExistingCss E rest ?w1] =>
          destruct (IH w1) as (skipped & Hasked & Hwarned & ->)
      end.
      cbn [fs trace] in *.
      exists (skipped ++ [EvExists (pathJoin E (cwd E) cssPath)]).
      split; [rewrite promptsAsked_app, Hasked; reflexivity|].
      split.
      * rewrite cssWarnings_app, rev_app_distr, Hwarned. reflexivity.
      * destruct (firstStylesheet E (fs w) rest) as [[c text]|];
          rewrite <- !app_assoc; reflexivity.
Qed.

(** The interactive branch asks the operator once and prints no warning
    of the loop. *)
Lemma createNewCss_asked (E : Env) (w : World) :
  exists asked,
    trace (snd (createNewCss E w)) = asked ++ trace w /\
    promptsAsked asked = [AskCssPath] /\
    cssWarnings asked = [].
Proof.
  unfold createNewCss, promptText, ensureDir, writeFile. io_unfold.
  cbn [fs trace].
  destruct (answerText E w AskCssPath) as [cssPath|];
    [|exists [EvPrompt AskCssPath]; repeat split; reflexivity].
  cbn [fs trace].
  destruct (fs w !! pathDirname E (pathJoin E (cwd E) cssPath))
    as [[?|]|] eqn:Hdir; cbn [fs trace snd].
  - eexists (_ :: _ :: _ :: []). repeat split; reflexivity.
  - destruct (fs w !! pathJoin E (cwd E) cssPath) as [[?|]|];
      cbn [fs trace snd].
    + eexists (_ :: _ :: _ :: _ :: _ :: []). repeat split; reflexivity.
    + eexists (_ :: _ :: _ :: _ :: []). repeat split; reflexivity.
    + eexists (_ :: _ :: _ :: _ :: _ :: []). repeat split; reflexivity.
  - destruct (<[pathDirname E (pathJoin E (cwd E) cssPath):=Dir]> (fs w)
                !! pathJoin E (cwd E) cssPath) as [[?|]|];
      cbn [fs trace snd].
    + eexists (_ :: _ :: _ :: _ :: _ :: []). repeat split; reflexivity.
    + eexists (_ :: _ :: _ :: _ :: []). repeat split; reflexivity.
    + eexists (_ :: _ :: _ :: _ :: _ :: []). repeat split; reflexivity.
Qed.

(** C7, as the code has it: the locator goes through the conventional
    paths in order.  A path that exists but is a directory is read in vain,
    reported with a warning that names it, and skipped.  At the first path
    that holds a regular file the search ends and the operator is not
    asked: when the file has the marker nothing is written and the
    directives are reported as already there, else the file is rewritten as
    the three directive lines followed by its text and reported as updated.
    When no conventional path holds a regular file the operator is asked,
    once, after the warnings. *)
Theorem stylesheet_locator_search (E : Env) (w : World) :
  exists skipped,
    promptsAsked skipped = [] /\
    rev (cssWarnings skipped) =
      map (fun cssPath => (cssPath, EISDIR (pathJoin E (cwd E) cssPath)))
        (unreadableBefore E (fs w) possibleCssPaths) /\
    match firstStylesheet E (fs w) possibleCssPaths with
    | Some (cssPath, content) =>
        createTailwindCSSFile E w =
          (Ok tt,
           {| fs := withDirectives E (fs w) cssPath content;
              trace := foundEvents E cssPath content ++ skipped ++ trace w |}) /\
        promptsAsked (foundEvents E cssPath content) = [] /\
        cssWarnings (foundEvents E cssPath content) = []
    | None =>
        exists asked,
          trace (snd (createTailwindCSSFile E w)) =
            asked ++ skipped ++ trace w /\
          promptsAsked asked = [AskCssPath] /\
          cssWarnings asked = []
    end.
Proof.
  destruct (updateExistingCss_search E possibleCssPaths w)
    as (skipped & Hasked & Hwarned & Hrun).
  exists skipped. split; [exact Hasked|]. split; [exact Hwarned|].
  unfold createTailwindCSSFile. unfold bind. rewrite Hrun.
  destruct (firstStylesheet E (fs w) possibleCssPaths) as [[cssPath content]|].
  - split; [reflexivity|]. unfold foundEvents.
    destruct (includes content "@tailwind"); split; reflexivity.
  - apply createNewCss_asked.
Qed.


(** *** Catalog lookup *)



End EffectsFacts.

(** ** The toast queue under the calls of its provider *)

Module ToasterExtraFacts.

Import Js Toaster ToasterExtra ToasterFacts.

Lemma filter_all {A : Type} (p : A -> bool) (l : list A) :
  (forall a, List.In a l -> p a = true) -> List.filter p l = l.
Proof.
  induction l as [|x l IH]; intros H; [reflexivity|].
  cbn [List.filter]. rewrite (H x) by (left; reflexivity).
  rewrite IH by (intros a Ha; apply H; right; exact Ha). reflexivity.
Qed.

(** Adding a toast whose id is new and removing that id gives the queue
    back. *)
Lemma add_remove_fresh {T : Type} (toast_id : T -> string) (queue : list T)
    (payload : T) :
  (forall toast, List.In toast queue -> toast_id toast <> toast_id payload) ->
  toastReducer toast_id (toastReducer toast_id queue (ADD_TOAST payload))
    (REMOVE_TOAST (toast_id payload)) = queue.
Proof.
  intros Hfresh. cbn [toastReducer]. rewrite List.filter_app.
  cbn [List.filter]. rewrite String.eqb_refl. cbn [negb].
  rewrite app_nil_r. apply filter_all.
  intros toast Hin. apply negb_true_iff, String.eqb_neq, Hfresh, Hin.
Qed.

(** X17: the id that [addToast] returns removes the toast it added, and
    nothing else: in Toaster.jsx, and in Toaster.tsx when [addToast] is
    called without options, [removeToast] of the returned id gives the
    queue back as it was, provided the generated id was not in use. *)
Theorem addToast_removeToast_round_trip (queue : list ToastOptions)
    (jsxQueue : list JsxToast) (defaultDuration : Z) (rnd message : string)
    (type : option string) (duration : option Z) (variant : option string) :
  (forall toast, List.In toast queue -> id toast <> rnd) ->
  (forall toast, List.In toast jsxQueue -> jsx_id toast <> rnd) ->
  toastReducer id
    (toastReducer id queue (snd (addToast_tsx rnd message None)))
    (removeToast (fst (addToast_tsx rnd message None))) = queue /\
  toastReducer jsx_id
    (toastReducer jsx_id jsxQueue
       (snd (addToast_jsx defaultDuration rnd message type duration variant)))
    (removeToast
       (fst (addToast_jsx defaultDuration rnd message type duration variant)))
  = jsxQueue.
Proof.
  intros Hfresh Hjsx. unfold addToast_tsx, addToast_jsx, removeToast.
  cbn [fst snd]. split.
  - change rnd with (id (tsxPayload rnd message None)) at 2.
    apply add_remove_fresh. intros toast Hin. apply Hfresh, Hin.
  - change rnd with
      (jsx_id (jsxPayload defaultDuration rnd message type duration variant))
      at 2.
    apply add_remove_fresh. intros toast Hin. apply Hjsx, Hin.
Qed.

(** One toast added to a queue of one and removed again. *)
Lemma addToast_removeToast_round_trip_witness :
  toastReducer id
    (toastReducer id [tsxPayload "a1" "saved" None]
       (snd (addToast_tsx "b2" "sent" None)))
    (removeToast (fst (addToast_tsx "b2" "sent" None))) =
  [tsxPayload "a1" "saved" None].
Proof.
  apply (addToast_removeToast_round_trip [tsxPayload "a1" "saved" None] []
           5000 "b2" "sent" None None None).
  - intros toast [<-|[]]. cbn. discriminate.
  - intros toast [].
Defined.

(** X18: an id given in the options replaces the generated one in the
    toast, but [addToast] still returns the generated id: [removeToast] of
    the returned id then leaves the toast in the queue; it is removed by
    the id of the options. *)
Theorem addToast_overridden_id_not_returned (queue : list ToastOptions)
    (rnd message custom : string) (o : PartialToastOptions) :
  opt_id o = Some custom ->
  custom <> rnd ->
  let added := addToast_tsx rnd message (Some o) in
  let toast := tsxPayload rnd message (Some o) in
  fst added = rnd /\
  id toast = custom /\
  List.In toast
    (toastReducer id (toastReducer id queue (snd added))
       (removeToast (fst added))) /\
  ~ List.In toast
      (toastReducer id (toastReducer id queue (snd added))
         (removeToast custom)).
Proof.
  intros Hopt Hne added toast.
  assert (Hid : id toast = custom).
  { unfold toast, tsxPayload. cbn. rewrite Hopt. reflexivity. }
  split; [reflexivity|]. split; [exact Hid|].
  unfold added, addToast_tsx, removeToast. cbn [fst snd toastReducer].
  fold toast. split.
  - apply filter_In. split; [apply in_or_app; right; left; reflexivity|].
    apply negb_true_iff, String.eqb_neq. rewrite Hid. exact Hne.
  - intros Hin. apply filter_In in Hin as [_ Hin].
    apply negb_true_iff, String.eqb_neq in Hin. contradiction.
Qed.

(** A toast added under the id "mine". *)
Lemma addToast_overridden_id_not_returned_witness :
  List.In (tsxPayload "b2" "sent" (Some (mkPartial (Some "mine") None None
                                            None None None)))
    (toastReducer id
       (toastReducer id []
          (snd (addToast_tsx "b2" "sent"
                  (Some (mkPartial (Some "mine") None None None None None)))))
       (removeToast "b2")).
Proof.
  destruct (addToast_overridden_id_not_returned [] "b2" "sent" "mine"
              (mkPartial (Some "mine") None None None None None))
    as (_ & _ & Hin & _).
  - reflexivity.
  - discriminate.
  - exact Hin.
Defined.

(** X19: [REMOVE_TOAST] removes every toast that carries the id, and only
    those: afterwards no toast has the id, the toasts with another id are
    all still there, a second removal of the id changes nothing, and the
    queue has not grown. *)
Theorem remove_toast_complete {T : Type} (toast_id : T -> string)
    (queue : list T) (id : string) :
  let remaining := toastReducer toast_id queue (REMOVE_TOAST id) in
  (forall toast, List.In toast remaining <->
                 List.In toast queue /\ toast_id toast <> id) /\
  toastReducer toast_id remaining (REMOVE_TOAST id) = remaining /\
  length remaining <= length queue.
Proof.
  intros remaining. unfold remaining. cbn [toastReducer].
  split; [|split].
  - intros toast. rewrite filter_In, negb_true_iff, String.eqb_neq.
    reflexivity.
  - apply filter_all. intros toast Hin. apply filter_In in Hin as [_ H].
    exact H.
  - apply List.filter_length_le.
Qed.

(** X20: removals commute: removing two ids in either order leaves the
    same queue. *)
Theorem remove_toast_commutes {T : Type} (toast_id : T -> string)
    (queue : list T) (a b : string) :
  toastReducer toast_id (toastReducer toast_id queue (REMOVE_TOAST a))
    (REMOVE_TOAST b) =
  toastReducer toast_id (toastReducer toast_id queue (REMOVE_TOAST b))
    (REMOVE_TOAST a).
Proof.
  cbn [toastReducer]. induction queue as [|toast queue IH]; [reflexivity|].
  cbn [List.filter].
  destruct (negb (toast_id toast =? a)%string) eqn:Ha;
    destruct (negb (toast_id toast =? b)%string) eqn:Hb;
    cbn [List.filter]; rewrite ?Ha, ?Hb, IH; reflexivity.
Qed.

Lemma firstn_filter_In {A : Type} (p : A -> bool) (l : list A) (n : nat)
    (a : A) :
  List.In a (firstn n l) -> p a = true ->
  List.In a (firstn n (List.filter p l)).
Proof.
  revert n. induction l as [|x l IH]; intros n Hin Hp.
  - rewrite firstn_nil in Hin. destruct Hin.
  - destruct n as [|n]; [destruct Hin|].
    cbn [firstn] in Hin. cbn [List.filter].
    destruct Hin as [->|Hin].
    + rewrite Hp. left. reflexivity.
    + specialize (IH n Hin Hp). destruct (p x).
      * right. exact IH.
      * revert IH. generalize (List.filter p l). intros l' IH.
        clear -IH. revert n IH. induction l' as [|y l' IHl]; intros n IH.
        -- rewrite firstn_nil in IH. destruct IH.
        -- destruct n as [|n]; [destruct IH|].
           cbn [firstn] in *. destruct IH as [->|IH];
             [left; reflexivity | right; apply IHl, IH].
Qed.

(** X21: removing a toast never hides another one: for a non-negative
    [maxToasts], a toast that is rendered and does not carry the removed id
    is still rendered after the removal. *)
Theorem removal_keeps_rendered {T : Type} (toast_id : T -> string)
    (queue : list T) (maxToasts : Z) (id : string) (toast : T) :
  (0 <= maxToasts)%Z ->
  List.In toast (visibleToasts queue maxToasts) ->
  toast_id toast <> id ->
  List.In toast
    (visibleToasts (toastReducer toast_id queue (REMOVE_TOAST id)) maxToasts).
Proof.
  intros Hmax Hin Hne. unfold visibleToasts in *.
  rewrite slice0_nonneg in * by exact Hmax. cbn [toastReducer].
  apply firstn_filter_In; [exact Hin|].
  apply negb_true_iff, String.eqb_neq, Hne.
Qed.

(** Three toasts, two rendered; the first is removed, the second stays. *)
Lemma removal_keeps_rendered_witness :
  List.In (tsxPayload "b2" "sent" None)
    (visibleToasts
       (toastReducer id
          [ tsxPayload "a1" "saved" None; tsxPayload "b2" "sent" None;
            tsxPayload "c3" "done" None ] (REMOVE_TOAST "a1")) 2).
Proof.
  apply (removal_keeps_rendered id
           [ tsxPayload "a1" "saved" None; tsxPayload "b2" "sent" None;
             tsxPayload "c3" "done" None ] 2 "a1").
  - lia.
  - right. left. reflexivity.
  - cbn. discriminate.
Defined.

(** X22: a toast added while fewer than [maxToasts] toasts are queued is
    rendered last; added to a queue that already fills the screen it is
    queued and the rendered list is unchanged (for a non-negative
    [maxToasts]). *)
Theorem added_toast_shown_or_queued {T : Type} (toast_id : T -> string)
    (queue : list T) (payload : T) (maxToasts : Z) :
  (0 <= maxToasts)%Z ->
  visibleToasts (toastReducer toast_id queue (ADD_TOAST payload)) maxToasts =
  if (Z.of_nat (length queue) <? maxToasts)%Z then queue ++ [payload]
  else visibleToasts queue maxToasts.
Proof.
  intros Hmax. unfold visibleToasts. rewrite !slice0_nonneg by exact Hmax.
  cbn [toastReducer].
  destruct (Z.of_nat (length queue) <? maxToasts)%Z eqn:Hlt.
  - apply Z.ltb_lt in Hlt. apply firstn_all2.
    rewrite length_app. cbn [length]. lia.
  - apply Z.ltb_ge in Hlt. rewrite firstn_app.
    replace (Z.to_nat maxToasts - length queue) with 0 by lia.
    cbn [firstn]. apply app_nil_r.
Qed.

(** A third toast on a screen of two. *)
Lemma added_toast_shown_or_queued_witness :
  visibleToasts
    (toastReducer id
       [tsxPayload "a1" "saved" None; tsxPayload "b2" "sent" None]
       (ADD_TOAST (tsxPayload "c3" "done" None))) 2 =
  [tsxPayload "a1" "saved" None; tsxPayload "b2" "sent" None].
Proof.
  rewrite (added_toast_shown_or_queued id
             [tsxPayload "a1" "saved" None; tsxPayload "b2" "sent" None]
             (tsxPayload "c3" "done" None) 2); [reflexivity | lia].
Defined.

(** A method of the toast service always makes a toast of its own
    type: whatever type the options of the caller name, the toast that
    [ToastService.success] (or [error], [warning], [info]) adds has the
    type of the method, every other field is what [addToast] makes of the
    options, and the generated id is returned. *)
Theorem toastService_forces_type (m : ServiceMethod) (rnd message : string)
    (options : option PartialToastOptions) :
  let base := tsxPayload rnd message options in
  toastService m rnd message options =
    (rnd,
     ADD_TOAST
       {| id := id base;
          message := Toaster.message base;
          duration := duration base;
          icon := icon base;
          animationVariant := animationVariant base;
          type := Some (methodType m) |}).
Proof. destruct options; reflexivity. Qed.


End ToasterExtraFacts.
